(** * Subscription, order and plan lifecycle of the donation tool

    A shallow embedding of the payment domain ([domain/payment]), of the
    [Subscriptions] service ([service/subscriptions.ts]) and of the PayPal
    adapter's plan upsert, followed by the properties of the lifecycle.

    JavaScript objects are records; a field that may be [null] or
    [undefined] is an [option].  A method that mutates [this] is a function
    from the object to an outcome and the object afterwards, so that what a
    throwing method leaves behind can be stated.  Code that awaits
    collaborators runs in a state and error monad over a [World]: the three
    repositories, the supply behind [v4()] and [new Date()], and the trace of
    the calls that left the service. *)

From Stdlib Require Import String Ascii List ZArith Bool Lia DecimalString DecimalZ.
Import ListNotations.
Open Scope string_scope.

Set Implicit Arguments.

(** ** Values of the JavaScript runtime *)

(** [Date] values are instants, counted in milliseconds. *)
Definition Date := Z.

(** A string is truthy unless it is empty. *)
Definition truthy (s : string) : bool :=
  match s with
  | EmptyString => false
  | String _ _ => true
  end.

(** [a || b] where [a] is [string | null] and [b] a string. *)
Definition or_else (a : option string) (b : string) : string :=
  match a with
  | Some s => if truthy s then s else b
  | None => b
  end.

(** [`${n}`] for an integral number [n]. *)
Definition Number_toString (n : Z) : string :=
  NilZero.string_of_int (Z.to_int n).

Definition option_string_eqb (a b : option string) : bool :=
  match a, b with
  | Some x, Some y => String.eqb x y
  | None, None => true
  | _, _ => false
  end.

(** ** Errors *)

(** The error classes of [domain/payment], a plain [new Error(message)], and
    what the collaborators raise. *)
Inductive Error : Type :=
| SubscriptionNotFound
| SubscriptionNotPending
| OrderNotFound
| SteamIdMismatch (expected fromUser : string)
| PlanNotFound
| PlainError (message : string)
| GatewayFailure (detail : string)
| RedeemFailure (detail : string).

Definition Result (A : Type) : Type := (Error + A)%type.

Abbreviation Ok := (@inr Error _).
Abbreviation Err := (@inl Error _).

Definition pay_before_intent : string :=
  "paying an order which was not intended to be payed, yet".

Definition double_payment_intent : string :=
  "can not intent to pay an order with an active payment intent".

(** Modelled from the spec: the [InvalidState] kind of its error taxonomy,
    which has no class in the source: [SubscriptionNotPending], paying before
    a payment intent, and a second payment intent. *)
Definition InvalidState (e : Error) : Prop :=
  e = SubscriptionNotPending \/
  e = PlainError pay_before_intent \/
  e = PlainError double_payment_intent.

(** ** Packages and users *)

Inductive PriceType : Type := FIXED | VARIABLE.

Record Price : Type := {
  price_type : PriceType;
  currency : string;
  amount : string
}.

(** Modelled from the spec: [Package] of [domain/package], a purchasable
    bundle with a price; the fields are those the source reads ([id], a
    number, [name], [description] and [price]). *)
Record Package : Type := {
  package_id : Z;
  package_name : string;
  package_description : string;
  price : Price
}.

(** Modelled from the spec: [User] of [domain/user], read by the source as
    [user.steam.id] and [user.discord.id]. *)
Record User : Type := {
  steam_id : string;
  discord_id : string
}.

(** Modelled from the spec: [RedeemTarget] of [domain/package], built by the
    source from a steam id and a discord id. *)
Record RedeemTarget : Type := {
  target_steamId : string;
  target_discordId : string
}.

(** ** Reference *)

Module Reference.

Record t : Type := {
  steamId : option string;
  discordId : string;
  p : Package
}.

Definition asString (r : t) : string :=
  or_else (steamId r) (discordId r) ++ "#" ++ Number_toString (package_id (p r)).

End Reference.

(** ** Order *)

Inductive OrderStatus : Type := CREATED | PAID.

Module OrderPayment.

Record t : Type := {
  id : option string;
  transactionId : option string;
  provider : option string
}.

(** [payment.transactionId = tx] *)
Definition with_transactionId (tx : string) (y : t) : t :=
  {| id := id y; transactionId := Some tx; provider := provider y |}.

End OrderPayment.

Module Order.

Record t : Type := {
  id : string;
  created : Date;
  reference : Reference.t;
  customMessage : option string;
  redeemedAt : option Date;
  status : OrderStatus;
  payment : option OrderPayment.t
}.

(** [Order.create] and [Order.createDeferred], given the value [v4()]
    returned for the id. *)
Definition create (uuid : string) (at_ : Date) (y : OrderPayment.t)
    (r : Reference.t) (message : option string) : t :=
  {| id := uuid; created := at_; reference := r; customMessage := message;
     redeemedAt := None; status := CREATED; payment := Some y |}.

Definition createDeferred (uuid : string) (at_ : Date)
    (r : Reference.t) (message : option string) : t :=
  {| id := uuid; created := at_; reference := r; customMessage := message;
     redeemedAt := None; status := CREATED; payment := None |}.

Definition paymentIntent (y : OrderPayment.t) (o : t) : Result unit * t :=
  match payment o with
  | Some _ => (Err (PlainError double_payment_intent), o)
  | None =>
      (Ok tt,
       {| id := id o; created := created o; reference := reference o;
          customMessage := customMessage o; redeemedAt := redeemedAt o;
          status := status o; payment := Some y |})
  end.

Definition pay (tx : string) (o : t) : Result unit * t :=
  match payment o with
  | None => (Err (PlainError pay_before_intent), o)
  | Some y =>
      (Ok tt,
       {| id := id o; created := created o; reference := reference o;
          customMessage := customMessage o; redeemedAt := redeemedAt o;
          status := PAID; payment := Some (OrderPayment.with_transactionId tx y) |})
  end.

End Order.

(** ** SubscriptionPlan *)

Record PlanPayment : Type := {
  productId : string;
  planId : string
}.

Module SubscriptionPlan.

Record t : Type := {
  id : string;
  basePackage : Package;
  payment : PlanPayment
}.

(** [SubscriptionPlan.create], given the value of [v4()]. *)
Definition create (uuid : string) (base : Package) (product plan : string) : t :=
  {| id := uuid; basePackage := base;
     payment := {| productId := product; planId := plan |} |}.

End SubscriptionPlan.

(** ** Subscription *)

Inductive SubscriptionState : Type := PENDING | ACTIVE | CANCELLED.

Record SubscriptionUser : Type := {
  user_steamId : string;
  user_discordId : string
}.

Module Subscription.

Record t : Type := {
  id : string;
  planId : string;
  payment_id : option string;
  user : SubscriptionUser;
  state : SubscriptionState
}.

Definition with_state (st : SubscriptionState) (s : t) : t :=
  {| id := id s; planId := planId s; payment_id := payment_id s;
     user := user s; state := st |}.

(** [Subscription.create(plan, user)], given the value of [v4()]. *)
Definition create (uuid : string) (plan : SubscriptionPlan.t) (u : User) : t :=
  {| id := uuid; planId := SubscriptionPlan.id plan; payment_id := None;
     user := {| user_steamId := steam_id u; user_discordId := discord_id u |};
     state := PENDING |}.

Definition cancel (s : t) : t := with_state CANCELLED s.

Definition agreeBilling (paymentId : string) (s : t) : t :=
  {| id := id s; planId := planId s; payment_id := Some paymentId;
     user := user s; state := state s |}.

(** [pay], given the values of [new Date()] and [v4()]: the order, and the
    subscription afterwards.  When [order.pay] throws, the state is not
    assigned. *)
Definition pay (at_ : Date) (uuid : string) (tx prov : string) (pk : Package)
    (s : t) : Result Order.t * t :=
  let order :=
    Order.create uuid at_
      {| OrderPayment.id := payment_id s;
         OrderPayment.transactionId := Some tx;
         OrderPayment.provider := Some prov |}
      {| Reference.steamId := Some (user_steamId (user s));
         Reference.discordId := user_discordId (user s);
         Reference.p := pk |}
      None in
  match Order.pay tx order with
  | (inl e, _) => (Err e, s)
  | (inr _, order') => (Ok order', with_state ACTIVE s)
  end.

Definition isActive (s : t) : bool :=
  match state s with
  | PENDING | ACTIVE => true
  | CANCELLED => false
  end.

(** [abortLink] returns a URL below the public URL of the configuration;
    the path is what the method contributes. *)
Definition abortLink (s : t) : Result string :=
  match state s with
  | PENDING => Ok ("/subscriptions/" ++ id s ++ "/abort")
  | _ => Err SubscriptionNotPending
  end.

Definition asLink (s : t) : string := "/subscriptions/" ++ id s.

End Subscription.

(** ** The PayPal client *)

(** What the adapter reads of a product or plan the provider returns. *)
Record Resource : Type := {
  resource_id : string;
  resource_name : string;
  resource_description : string
}.

Record Response : Type := {
  statusCode : Z;
  result : Resource
}.

(** The requests of the plan upsert.  A request carries the identifier that
    goes into its path and the values its body is built from ([requestBody]
    turns them into JSON; translations and the home URL are constants of
    the running adapter). *)
Inductive Request : Type :=
| GetProductRequest (productId : string)
| CreateProductRequest (productId : string) (p : Package)
| UpdateProductRequest (productId : string) (original : Resource) (p : Package)
| GetPlanRequest (planId : string)
| CreatePlanRequest (productId : string) (p : Package)
| UpdatePlanRequest (planId : string) (original : Resource) (p : Package)
| UpdatePricingPlanRequest (planId : string) (pr : Price)
| CancelSubscriptionRequest (subscriptionId : option string).

Record PendingSubscription : Type := {
  pending_id : string;
  approvalLink : string
}.

(** ** The world of the service *)

(** The calls that leave the service, in the order they are made. *)
Inductive Event : Type :=
| PaymentSubscribe (plan : SubscriptionPlan.t) (u : User)
| PaymentCancelSubscription (s : Subscription.t)
| SubscriptionSaved (s : Subscription.t)
| OrderSaved (o : Order.t)
| Redeem (o : Order.t) (target : RedeemTarget)
| Emit (name : string) (target : RedeemTarget) (o : Order.t)
| Execute (r : Request).

(** The invocations of the redeem engine in a trace. *)
Fixpoint redeem_calls (t : list Event) : list (Order.t * RedeemTarget) :=
  match t with
  | [] => []
  | Redeem o target :: t' => (o, target) :: redeem_calls t'
  | _ :: t' => redeem_calls t'
  end.

Record World : Type := {
  subscriptionPlans : list SubscriptionPlan.t;
  subscriptions : list Subscription.t;
  orders : list Order.t;
  uuids : nat -> string;
  clock : nat -> Date;
  tick : nat;
  trace : list Event
}.

Definition with_subscriptions (rows : list Subscription.t) (w : World) : World :=
  {| subscriptionPlans := subscriptionPlans w; subscriptions := rows;
     orders := orders w; uuids := uuids w; clock := clock w;
     tick := tick w; trace := trace w |}.

Definition with_orders (rows : list Order.t) (w : World) : World :=
  {| subscriptionPlans := subscriptionPlans w; subscriptions := subscriptions w;
     orders := rows; uuids := uuids w; clock := clock w;
     tick := tick w; trace := trace w |}.

Definition next_tick (w : World) : World :=
  {| subscriptionPlans := subscriptionPlans w; subscriptions := subscriptions w;
     orders := orders w; uuids := uuids w; clock := clock w;
     tick := S (tick w); trace := trace w |}.

Definition log (e : Event) (w : World) : World :=
  {| subscriptionPlans := subscriptionPlans w; subscriptions := subscriptions w;
     orders := orders w; uuids := uuids w; clock := clock w;
     tick := tick w; trace := trace w ++ [e] |}.

(** ** Awaiting code: state and exceptions *)

Definition M (A : Type) : Type := World -> Result A * World.

Definition ret {A : Type} (a : A) : M A := fun w => (Ok a, w).

Definition throw {A : Type} (e : Error) : M A := fun w => (Err e, w).

Definition bind {A B : Type} (c : M A) (k : A -> M B) : M B :=
  fun w =>
    match c w with
    | (inl e, w') => (Err e, w')
    | (inr a, w') => k a w'
    end.

Declare Scope await_scope.
Delimit Scope await_scope with await.
Notation "x <- c ;; k" := (bind c (fun x => k))
  (at level 61, c at next level, right associativity) : await_scope.
Notation "c ;; k" := (bind c (fun _ => k))
  (at level 61, right associativity) : await_scope.
Open Scope await_scope.

(** The outcome of a synchronous method call on a local object. *)
Definition of_result {A : Type} (r : Result A) : M A := fun w => (r, w).

(** [v4()] *)
Definition v4 : M string := fun w => (Ok (uuids w (tick w)), next_tick w).

(** [new Date()] *)
Definition now : M Date := fun w => (Ok (clock w (tick w)), next_tick w).

(** A call to a collaborator outside the service: the call is recorded, the
    collaborator answers from the world it is called in, or fails. *)
Definition external {A : Type} (e : Event) (answer : World -> Result A) : M A :=
  fun w => (answer w, log e w).

(** ** Repositories *)

Section Table.

Variable A : Type.
Variable key : A -> string.

Definition lookup (k : string) (rows : list A) : option A :=
  find (fun r => String.eqb (key r) k) rows.

(** A row replaces the stored row of the same key, or is added. *)
Fixpoint upsert (x : A) (rows : list A) : list A :=
  match rows with
  | [] => [x]
  | r :: rows' =>
      if String.eqb (key r) (key x) then x :: rows'
      else r :: upsert x rows'
  end.

End Table.

(** Modelled from the spec: [SubscriptionsRepository] of
    [domain/repositories] (find and save by id and by payment id).  [find]
    answers [undefined] for an unknown id, which is what the service tests
    for; [findByPayment] fails with [SubscriptionNotFound] if no match. *)
Module SubscriptionsRepository.

Definition find (id : string) : M (option Subscription.t) :=
  fun w => (Ok (lookup Subscription.id id (subscriptions w)), w).

Definition by_payment (paymentId : string) (rows : list Subscription.t)
    : option Subscription.t :=
  List.find
    (fun s => option_string_eqb (Subscription.payment_id s) (Some paymentId))
    rows.

Definition findByPayment (paymentId : string) : M Subscription.t :=
  fun w =>
    match by_payment paymentId (subscriptions w) with
    | Some s => (Ok s, w)
    | None => (Err SubscriptionNotFound, w)
    end.

Definition save (s : Subscription.t) : M unit :=
  fun w =>
    (Ok tt,
     log (SubscriptionSaved s)
       (with_subscriptions (upsert Subscription.id s (subscriptions w)) w)).

End SubscriptionsRepository.

(** Modelled from the spec: [SubscriptionPlanRepository] of
    [domain/repositories]; a lookup that finds no plan fails with
    [PlanNotFound]. *)
Module SubscriptionPlanRepository.

Definition by_package (p : Package) (rows : list SubscriptionPlan.t)
    : option SubscriptionPlan.t :=
  List.find
    (fun pl => Z.eqb (package_id (SubscriptionPlan.basePackage pl)) (package_id p))
    rows.

Definition findByPackage (p : Package) : M SubscriptionPlan.t :=
  fun w =>
    match by_package p (subscriptionPlans w) with
    | Some pl => (Ok pl, w)
    | None => (Err PlanNotFound, w)
    end.

Definition find (id : string) : M SubscriptionPlan.t :=
  fun w =>
    match lookup SubscriptionPlan.id id (subscriptionPlans w) with
    | Some pl => (Ok pl, w)
    | None => (Err PlanNotFound, w)
    end.

End SubscriptionPlanRepository.

(** Modelled from the spec: [OrderRepository] of [domain/repositories];
    [findByPaymentOrder] gathers the orders of a billing id. *)
Module OrderRepository.

Definition save (o : Order.t) : M unit :=
  fun w =>
    (Ok tt, log (OrderSaved o) (with_orders (upsert Order.id o (orders w)) w)).

Definition paid_with (paymentId : option string) (o : Order.t) : bool :=
  match Order.payment o with
  | Some y => option_string_eqb (OrderPayment.id y) paymentId
  | None => false
  end.

Definition findByPaymentOrder (paymentId : option string) : M (list Order.t) :=
  fun w => (Ok (filter (paid_with paymentId) (orders w)), w).

End OrderRepository.

(** ** The Subscriptions service *)

(** The payment gateway as the service calls it. *)
Record Payment : Type := {
  payment_subscribe : World -> SubscriptionPlan.t -> User -> Result PendingSubscription;
  payment_cancelSubscription : World -> Subscription.t -> Result unit
}.

(** Modelled from the spec: the redeem engine [RedeemPackage] of
    [service/redeem-package], [redeem(order, target) -> void].  The engine
    sets [redeemedAt] on the order it is handed, which is the object the
    service goes on to use, and an order is persisted after every mutation;
    what the engine grants lies outside the world of this service.  So a
    call answers with its outcome, with the date it has assigned to
    [order.redeemedAt] ([None] when it has assigned none) and with whether
    it has saved the order. *)
Record Redemption : Type := {
  redemption : Result unit;
  redeemedAt_assigned : option Date;
  order_saved : bool
}.

Record RedeemPackage : Type := {
  redeem_redeem : World -> Order.t -> RedeemTarget -> Redemption
}.

(** [order.redeemedAt = date], for the date the engine assigns, if any. *)
Definition redeemed (assigned : option Date) (o : Order.t) : Order.t :=
  match assigned with
  | Some d =>
      {| Order.id := Order.id o; Order.created := Order.created o;
         Order.reference := Order.reference o;
         Order.customMessage := Order.customMessage o;
         Order.redeemedAt := Some d; Order.status := Order.status o;
         Order.payment := Order.payment o |}
  | None => o
  end.

(** [await this.redeem.redeem(order, target)]: the call is recorded; the
    order is then as the engine leaves it, in the order store too when the
    engine has saved it; an error of the engine is thrown. *)
Definition redeemed_by (engine : RedeemPackage) (order : Order.t)
    (target : RedeemTarget) : M Order.t :=
  fun w =>
    let answer := redeem_redeem engine w order target in
    let order' := redeemed (redeemedAt_assigned answer) order in
    let w1 := log (Redeem order target) w in
    let w2 :=
      if order_saved answer
      then {| subscriptionPlans := subscriptionPlans w1;
              subscriptions := subscriptions w1;
              orders := upsert Order.id order' (orders w1);
              uuids := uuids w1; clock := clock w1; tick := tick w1;
              trace := trace w1 |}
      else w1 in
    match redemption answer with
    | inl e => (Err e, w2)
    | inr _ => (Ok order', w2)
    end.

Record ViewSubscription : Type := {
  view_subscription : Subscription.t;
  view_plan : SubscriptionPlan.t;
  history : list Order.t
}.

(** What a caller passes where [Subscription.create] declares its [user]:
    a user, or a text. *)
Inductive Passed : Type :=
| PassedUser (u : User)
| PassedText (text : string).

(** Reading [steam] of a text gives [undefined], and reading [id] of that
    throws a TypeError; the text is the engine's. *)
Definition id_of_undefined_steam : string :=
  "Cannot read properties of undefined (reading 'id')".

(** [Subscription.create(plan, user)] for whatever is passed as [user],
    given the value of [v4()], which is drawn before [user.steam.id] is
    read. *)
Definition Subscription_create_passed (uuid : string) (plan : SubscriptionPlan.t)
    (user : Passed) : Result Subscription.t :=
  match user with
  | PassedUser u => Ok (Subscription.create uuid plan u)
  | PassedText _ => Err (PlainError id_of_undefined_steam)
  end.

Module Subscriptions.

Section Service.

Variable payment : Payment.
Variable redeem : RedeemPackage.

(** [Subscription.create(plan, result.id, user)]: of the three arguments
    the first two reach the two parameters of [create], so that the
    agreement id is what [create] has for its [user]; the third is
    dropped. *)
Definition subscribe (p : Package) (u : User) : M PendingSubscription :=
  plan <- SubscriptionPlanRepository.findByPackage p ;;
  result <- external (PaymentSubscribe plan u)
              (fun w => payment_subscribe payment w plan u) ;;
  uuid <- v4 ;;
  created <- of_result
               (Subscription_create_passed uuid plan
                  (PassedText (pending_id result))) ;;
  SubscriptionsRepository.save created ;;
  ret result.

Definition redeemSubscriptionPayment (paymentId transactionId : string)
    : M Order.t :=
  sub <- SubscriptionsRepository.findByPayment paymentId ;;
  plan <- SubscriptionPlanRepository.find (Subscription.planId sub) ;;
  let sub := Subscription.with_state ACTIVE sub in
  SubscriptionsRepository.save sub ;;
  date <- now ;;
  uuid <- v4 ;;
  let order :=
    Order.create uuid date
      {| OrderPayment.id := Some paymentId;
         OrderPayment.transactionId := Some transactionId;
         OrderPayment.provider := None |}
      {| Reference.steamId := Some (user_steamId (Subscription.user sub));
         Reference.discordId := user_discordId (Subscription.user sub);
         Reference.p := SubscriptionPlan.basePackage plan |}
      None in
  let paid := Order.pay transactionId order in
  of_result (fst paid) ;;
  let order := snd paid in
  OrderRepository.save order ;;
  let target :=
    {| target_steamId := user_steamId (Subscription.user sub);
       target_discordId := user_discordId (Subscription.user sub) |} in
  order <- redeemed_by redeem order target ;;
  external (Emit "successfulSubscriptionExecution" target order)
    (fun _ => Ok tt) ;;
  ret order.

(** The private [subscription(id, forUser)]. *)
Definition subscription (id : string) (forUser : User) : M Subscription.t :=
  found <- SubscriptionsRepository.find id ;;
  match found with
  | None => throw SubscriptionNotFound
  | Some s =>
      if String.eqb (user_discordId (Subscription.user s)) (discord_id forUser)
      then ret s
      else throw SubscriptionNotFound
  end.

Definition viewSubscription (id : string) (forUser : User) : M ViewSubscription :=
  s <- subscription id forUser ;;
  os <- OrderRepository.findByPaymentOrder (Subscription.payment_id s) ;;
  plan <- SubscriptionPlanRepository.find (Subscription.planId s) ;;
  ret {| view_subscription := s; view_plan := plan; history := os |}.

Definition cancel (id : string) (forUser : User) : M unit :=
  s <- subscription id forUser ;;
  external (PaymentCancelSubscription s)
    (fun w => payment_cancelSubscription payment w s) ;;
  let s := Subscription.cancel s in
  SubscriptionsRepository.save s.

End Service.

End Subscriptions.

(** The order that [redeemSubscriptionPayment] creates and pays when it
    runs in a world, for the subscription and the plan it has found, and
    the target it redeems for. *)
Definition billed_order (w : World) (paymentId transactionId : string)
    (sub : Subscription.t) (plan : SubscriptionPlan.t) : Order.t :=
  snd (Order.pay transactionId
         (Order.create (uuids w (S (tick w))) (clock w (tick w))
            {| OrderPayment.id := Some paymentId;
               OrderPayment.transactionId := Some transactionId;
               OrderPayment.provider := None |}
            {| Reference.steamId := Some (user_steamId (Subscription.user sub));
               Reference.discordId := user_discordId (Subscription.user sub);
               Reference.p := SubscriptionPlan.basePackage plan |}
            None)).

Definition billed_target (sub : Subscription.t) : RedeemTarget :=
  {| target_steamId := user_steamId (Subscription.user sub);
     target_discordId := user_discordId (Subscription.user sub) |}.

(** ** The PayPal adapter: plan upsert *)

Module PaypalPayment.

Section Adapter.

(** [this.client.execute]: the provider's answer to a request, or the
    failure of the call. *)
Variable client : World -> Request -> Result Response.

Definition execute (r : Request) : M Response :=
  external (Execute r) (fun w => client w r).

Definition asProductId (p : Package) : string :=
  "DONATE-" ++ Number_toString (package_id p).

Definition product (p : Package) : M Response :=
  execute (GetProductRequest (asProductId p)).

Definition plan (id : string) : M Response :=
  execute (GetPlanRequest id).

Definition createProduct (p : Package) : M Response :=
  execute (CreateProductRequest (asProductId p) p).

Definition updateProduct (prod : Response) (p : Package) : M Response :=
  execute (UpdateProductRequest (asProductId p) (result prod) p) ;;
  product p.

Definition createPlan (p : Package) : M Response :=
  execute (CreatePlanRequest (asProductId p) p).

Definition updatePlan (pl : Response) (p : Package) : M Response :=
  execute (UpdatePlanRequest (resource_id (result pl)) (result pl) p) ;;
  execute (UpdatePricingPlanRequest (resource_id (result pl)) (price p)) ;;
  plan (resource_id (result pl)).

Definition persistSubscription (p : Package) (sp : option SubscriptionPlan.t)
    : M SubscriptionPlan.t :=
  prod <- product p ;;
  prod <- (if Z.eqb (statusCode prod) 200
           then updateProduct prod p
           else createProduct p) ;;
  match sp with
  | Some s =>
      if truthy (planId (SubscriptionPlan.payment s)) then
        pl <- plan (planId (SubscriptionPlan.payment s)) ;;
        pl <- updatePlan pl p ;;
        ret {| SubscriptionPlan.id := SubscriptionPlan.id s;
               SubscriptionPlan.basePackage := p;
               SubscriptionPlan.payment :=
                 {| productId := resource_id (result prod);
                    planId := resource_id (result pl) |} |}
      else
        pl <- createPlan p ;;
        uuid <- v4 ;;
        ret (SubscriptionPlan.create uuid p
               (resource_id (result prod)) (resource_id (result pl)))
  | None =>
      pl <- createPlan p ;;
      uuid <- v4 ;;
      ret (SubscriptionPlan.create uuid p
             (resource_id (result prod)) (resource_id (result pl)))
  end.

Definition cancelSubscription (s : Subscription.t) : M unit :=
  execute (CancelSubscriptionRequest (Subscription.payment_id s)) ;;
  ret tt.

End Adapter.

End PaypalPayment.

(** ** The fake adapter *)

Module FakePayment.

(** [SubscriptionPlan.create(p, v4(), v4())]: the two arguments are drawn
    first, the plan's id last. *)
Definition persistSubscription (p : Package) (sp : option SubscriptionPlan.t)
    : M SubscriptionPlan.t :=
  prod <- v4 ;;
  pl <- v4 ;;
  uuid <- v4 ;;
  ret (SubscriptionPlan.create uuid p prod pl).

Definition cancelSubscription (s : Subscription.t) : M unit := ret tt.

End FakePayment.

(** ** A scenario

    The end-to-end example of the lifecycle: a package with a persisted
    plan, a gateway that answers with agreement [AG1], and the users
    involved. *)

Module Scenario.

Definition vip : Package :=
  {| package_id := 1; package_name := "VIP";
     package_description := "Priority queue for a month";
     price := {| price_type := FIXED; currency := "USD"; amount := "10.00" |} |}.

Definition other_package : Package :=
  {| package_id := 2; package_name := "Supporter";
     package_description := "";
     price := {| price_type := VARIABLE; currency := "USD"; amount := "5.00" |} |}.

Definition alice : User :=
  {| steam_id := "76561198012102485"; discord_id := "1001" |}.

Definition mallory : User :=
  {| steam_id := "76561198012109999"; discord_id := "6666" |}.

Definition vip_plan : SubscriptionPlan.t :=
  {| SubscriptionPlan.id := "plan-1"; SubscriptionPlan.basePackage := vip;
     SubscriptionPlan.payment := {| productId := "DONATE-1"; planId := "P-1" |} |}.

Definition gateway : Payment :=
  {| payment_subscribe := fun _ _ _ =>
       Ok {| pending_id := "AG1";
             approvalLink := "https://example.com/approveSubscription" |};
     payment_cancelSubscription := fun _ _ => Ok tt |}.

Definition gateway_down : Payment :=
  {| payment_subscribe := fun _ _ _ => Err (GatewayFailure "timeout");
     payment_cancelSubscription := fun _ _ => Err (GatewayFailure "timeout") |}.

(** An engine that stamps the order it redeems and saves it. *)
Definition engine : RedeemPackage :=
  {| redeem_redeem := fun _ _ _ =>
       {| redemption := Ok tt;
          redeemedAt_assigned := Some 1600000000500%Z;
          order_saved := true |} |}.

Definition subscription_of (st : SubscriptionState) : Subscription.t :=
  {| Subscription.id := "sub-1"; Subscription.planId := "plan-1";
     Subscription.payment_id := Some "AG1";
     Subscription.user :=
       {| user_steamId := "76561198012102485"; user_discordId := "1001" |};
     Subscription.state := st |}.

(** A provider that knows every product and plan asked for and names a
    new plan [P-1]. *)
Definition paypal (w : World) (r : Request) : Result Response :=
  let answer code id :=
    Ok {| statusCode := code;
          result := {| resource_id := id; resource_name := "";
                       resource_description := "" |} |} in
  match r with
  | GetProductRequest id => answer 200%Z id
  | CreateProductRequest id _ => answer 201%Z id
  | UpdateProductRequest id _ _ => answer 204%Z id
  | GetPlanRequest id => answer 200%Z id
  | CreatePlanRequest _ _ => answer 201%Z "P-1"
  | UpdatePlanRequest id _ _ => answer 204%Z id
  | UpdatePricingPlanRequest id _ => answer 204%Z id
  | CancelSubscriptionRequest _ => answer 204%Z ""
  end.

Definition world (subs : list Subscription.t) : World :=
  {| subscriptionPlans := [vip_plan]; subscriptions := subs; orders := [];
     uuids := fun n => "uuid-" ++ Number_toString (Z.of_nat n);
     clock := fun n => (1600000000000 + Z.of_nat n)%Z;
     tick := 0; trace := [] |}.

End Scenario.

(** ** Calls on an Order, one after the other *)

Module OrderCalls.

(** A call of one of the two mutating methods of an Order. *)
Inductive Call : Type :=
| Pay (tx : string)
| PaymentIntent (y : OrderPayment.t).

Definition call (c : Call) (o : Order.t) : Result unit * Order.t :=
  match c with
  | Pay tx => Order.pay tx o
  | PaymentIntent y => Order.paymentIntent y o
  end.

(** The order after the calls, made in turn by a caller that goes on when
    a call throws. *)
Fixpoint calls (cs : list Call) (o : Order.t) : Order.t :=
  match cs with
  | [] => o
  | c :: cs' => calls cs' (snd (call c o))
  end.

End OrderCalls.

(** An order is PAID only with a payment that carries a transaction id. *)
Definition paid_with_transaction (o : Order.t) : Prop :=
  Order.status o = PAID ->
  exists y tx, Order.payment o = Some y /\ OrderPayment.transactionId y = Some tx.

(** ** Calls on a Subscription, one after the other *)

Module SubscriptionCalls.

(** A call of one of the three mutating methods of a Subscription; [Pay]
    carries the values of [new Date()] and [v4()] as well. *)
Inductive Call : Type :=
| Cancel
| AgreeBilling (paymentId : string)
| Pay (at_ : Date) (uuid : string) (tx prov : string) (pk : Package).

Definition call (c : Call) (s : Subscription.t) : Subscription.t :=
  match c with
  | Cancel => Subscription.cancel s
  | AgreeBilling paymentId => Subscription.agreeBilling paymentId s
  | Pay at_ uuid tx prov pk => snd (Subscription.pay at_ uuid tx prov pk s)
  end.

Definition calls (cs : list Call) (s : Subscription.t) : Subscription.t :=
  fold_left (fun s c => call c s) cs s.

Definition agrees (c : Call) : bool :=
  match c with
  | AgreeBilling _ => true
  | _ => false
  end.

End SubscriptionCalls.

(** ** The requests in a trace *)

Fixpoint executed (t : list Event) : list Request :=
  match t with
  | [] => []
  | Execute r :: t' => r :: executed t'
  | _ :: t' => executed t'
  end.

Definition creates_plan (r : Request) : bool :=
  match r with
  | CreatePlanRequest _ _ => true
  | _ => false
  end.

Definition updates_plan (r : Request) : bool :=
  match r with
  | UpdatePlanRequest _ _ _ | UpdatePricingPlanRequest _ _ => true
  | _ => false
  end.

Definition creates_product (r : Request) : bool :=
  match r with
  | CreateProductRequest _ _ => true
  | _ => false
  end.

Definition updates_product (r : Request) : bool :=
  match r with
  | UpdateProductRequest _ _ _ => true
  | _ => false
  end.

(** ** The PayPal adapter: request bodies *)

(** [hay.includes(needle)] *)
Fixpoint includes (needle hay : string) : bool :=
  if String.prefix needle hay then true
  else match hay with
       | EmptyString => false
       | String _ rest => includes needle rest
       end.

(** Whether a character occurs in a string. *)
Fixpoint occurs (c : ascii) (s : string) : bool :=
  match s with
  | EmptyString => false
  | String d rest => Ascii.eqb d c || occurs c rest
  end.

Module UpdateRequest.

(** The properties an update may name: those of [UpdateProduct] and of
    [UpdatePlan]. *)
Inductive Field : Type :=
| name | description | category | image_url | home_url.

Definition field_name (f : Field) : string :=
  match f with
  | name => "name"
  | description => "description"
  | category => "category"
  | image_url => "image_url"
  | home_url => "home_url"
  end.

Inductive Op : Type := op_add | op_replace | op_remove.

(** An operation of the JSON patch; [remove] has no value. *)
Record PatchOp : Type := {
  op : Op;
  path : string;
  value : option string
}.

(** The update, as [Object.entries] lists it: its properties in insertion
    order, [None] for a property whose value is [undefined]. *)
Definition Entries : Type := list (Field * option string).

(** The product or plan as the provider has it: [original[field]], [None]
    when that is [undefined]. *)
Definition Original : Type := Field -> option string.

Definition getProperty (o : Original) (propertyName : Field) : option string :=
  o propertyName.

(** The body of the loop of [requestBody]: what one entry pushes. *)
Definition push_entry (original : Original) (ops : list PatchOp)
    (entry : Field * option string) : list PatchOp :=
  let oldValue := getProperty original (fst entry) in
  let at_ := "/" ++ field_name (fst entry) in
  match snd entry with
  | Some v =>
      match oldValue with
      | None => ops ++ [{| op := op_add; path := at_; value := Some v |}]
      | Some _ => ops ++ [{| op := op_replace; path := at_; value := Some v |}]
      end
  | None =>
      match oldValue with
      | Some _ => ops ++ [{| op := op_remove; path := at_; value := None |}]
      | None => ops
      end
  end.

(** [requestBody(original, product)] of [UpdateProductRequest] and of
    [UpdatePlanRequest]: the patch that becomes the body. *)
Definition requestBody (original : Original) (product : Entries) : list PatchOp :=
  fold_left (push_entry original) product [].

End UpdateRequest.

Module PaypalBodies.

Section Config.

(** [this.config.app.publicUrl.toString()] *)
Variable publicUrl : string.

Definition homeUrl : option string :=
  if includes "localhost" publicUrl then None else Some publicUrl.

(** The body [updateProduct] sends for a product as the provider has it. *)
Definition updateProduct (original : UpdateRequest.Original) (p : Package)
    : list UpdateRequest.PatchOp :=
  UpdateRequest.requestBody original
    [(UpdateRequest.category, Some "ONLINE_GAMING");
     (UpdateRequest.description, Some (package_description p));
     (UpdateRequest.name, Some (package_name p));
     (UpdateRequest.home_url, homeUrl)].

End Config.

(** The body [updatePlan] sends first; the two texts are translations. *)
Definition updatePlan (description name : string)
    (original : UpdateRequest.Original) : list UpdateRequest.PatchOp :=
  UpdateRequest.requestBody original
    [(UpdateRequest.description, Some description);
     (UpdateRequest.name, Some name)].

End PaypalBodies.

(** ** The PayPal adapter: subscribing *)

Module PaypalSubscribe.

Record ApplicationContext : Type := {
  brand_name : string;
  shipping_preference : string;
  user_action : string;
  return_url : string;
  cancel_url : string
}.

Record PayPalSubscription : Type := {
  plan_id : string;
  custom_id : string;
  application_context : ApplicationContext
}.

Record HATEOASLink : Type := {
  href : string;
  rel : string;
  method : string
}.

Record SubscriptionResult : Type := {
  result_id : string;
  links : list HATEOASLink
}.

(** Reading [href] of the [undefined] that [find] returns when no link
    matches throws a TypeError; the text is the engine's. *)
Definition href_of_undefined : string :=
  "Cannot read properties of undefined (reading 'href')".

Section Adapter.

(** [config.app.community?.title], the translation of the default community
    name, and the resolution of a path against the public URL. *)
Variable title : option string.
Variable default_name : string.
Variable resolve : string -> string.

(** [this.client.execute] for the one request of [subscribe]. *)
Variable client : PayPalSubscription -> Result SubscriptionResult.

Definition communityTitle : string := or_else title default_name.

Definition subscribe (sub : Subscription.t) (plan : SubscriptionPlan.t) (u : User)
    : Result PendingSubscription :=
  let custom :=
    Reference.asString
      {| Reference.steamId := Some (steam_id u);
         Reference.discordId := discord_id u;
         Reference.p := SubscriptionPlan.basePackage plan |} in
  let ret_url := resolve (Subscription.asLink sub) in
  match Subscription.abortLink sub with
  | inl e => Err e
  | inr abort =>
      let body :=
        {| plan_id := planId (SubscriptionPlan.payment plan);
           custom_id := custom;
           application_context :=
             {| brand_name := communityTitle;
                shipping_preference := "NO_SHIPPING";
                user_action := "SUBSCRIBE_NOW";
                return_url := ret_url;
                cancel_url := resolve abort |} |} in
      match client body with
      | inl e => Err e
      | inr answer =>
          match find (fun l => String.eqb (rel l) "approve") (links answer) with
          | Some l =>
              Ok {| pending_id := result_id answer; approvalLink := href l |}
          | None => Err (PlainError href_of_undefined)
          end
      end
  end.

End Adapter.

End PaypalSubscribe.

(** ** The start controller *)

Module StartController.

(** [text.replace(',', '.')]: the first comma only. *)
Fixpoint replace_comma (text : string) : string :=
  match text with
  | EmptyString => EmptyString
  | String c rest =>
      if Ascii.eqb c "," then String "." rest else String c (replace_comma rest)
  end.

(** [pack.price] *)
Definition price_of (pack : Package) : Price := price pack.

Definition with_amount (a : string) (pr : Price) : Price :=
  {| price_type := price_type pr; currency := currency pr; amount := a |}.

Definition with_price (pr : Price) (pack : Package) : Package :=
  {| package_id := package_id pack; package_name := package_name pack;
     package_description := package_description pack; price := pr |}.

Definition variable_price_for_fixed : string := "VariablePriceForFixedPackage".

Definition id_of_undefined : string :=
  "Cannot read properties of undefined (reading 'id')".

(** What a request leaves behind: the packages of the configuration, whose
    price objects the handler writes to, the selection in the session, the
    redirects sent and the warnings logged. *)
Record Handled : Type := {
  packages : list Package;
  selected : option (Z * Price);
  redirects : list string;
  warnings : list string
}.

(** The first package of an id is replaced. *)
Fixpoint write_package (pack : Package) (packs : list Package) : list Package :=
  match packs with
  | [] => []
  | q :: rest =>
      if Z.eqb (package_id q) (package_id pack) then pack :: rest
      else q :: write_package pack rest
  end.

Section Controller.

(** Whether [Math.sign(amount)] is 1, for the text of an amount: whether
    JavaScript reads the text as a number above zero. *)
Variable sign_is_one : string -> bool.

(** [price(req, pack)], given [req.body['price-' + pack.id]] ([None] when
    the form has no such field): the outcome, and the package afterwards,
    whose price object is the one returned. *)
Definition price (submitted : option string) (pack : Package)
    : Result Price * Package :=
  match submitted with
  | None => (Ok (price_of pack), pack)
  | Some text =>
      if truthy text then
        match price_type (price_of pack) with
        | FIXED => (Err (PlainError variable_price_for_fixed), pack)
        | VARIABLE =>
            let amount := replace_comma text in
            if sign_is_one amount then
              let pr := with_amount amount (price_of pack) in
              (Ok pr, with_price pr pack)
            else
              (Err (PlainError ("Invalid variable price detected: " ++ amount)),
               pack)
        end
      else (Ok (price_of pack), pack)
  end.

(** [selectPackage(req, res)], given [parseInt(req.body.package)] ([None]
    for [NaN]), the fields of the form and the discord id of the user. *)
Definition selectPackage (parsed : option Z) (body : string -> option string)
    (discordId : string) (h : Handled) : Result unit * Handled :=
  let selectedPackage :=
    match parsed with
    | Some n => find (fun q => Z.eqb (package_id q) n) (packages h)
    | None => None
    end in
  match selectedPackage with
  | None =>
      (Err (PlainError id_of_undefined),
       {| packages := packages h; selected := selected h;
          redirects := redirects h ++ ["/"]; warnings := warnings h |})
  | Some pack =>
      match price (body ("price-" ++ Number_toString (package_id pack))) pack with
      | (inr pr, pack') =>
          (Ok tt,
           {| packages := write_package pack' (packages h);
              selected := Some (package_id pack, pr);
              redirects := redirects h ++ ["/donate"];
              warnings := warnings h |})
      | (inl e, _) =>
          match e with
          | PlainError message =>
              if String.eqb message variable_price_for_fixed then
                (Ok tt,
                 {| packages := packages h; selected := selected h;
                    redirects := redirects h ++ ["/"];
                    warnings :=
                      warnings h
                      ++ ["Discord user " ++ discordId
                          ++ " requested variable price for fixed package."] |})
              else (Err e, h)
          | _ => (Err e, h)
          end
      end
  end.

End Controller.

End StartController.

(** ** The scenario at the provider *)

Module ScenarioPaypal.

(** The VIP product as the provider has it, before an update. *)
Definition provider_product : UpdateRequest.Original :=
  fun f =>
    match f with
    | UpdateRequest.name => Some "VIP"
    | UpdateRequest.description => Some "Priority queue"
    | UpdateRequest.category => Some "ONLINE_GAMING"
    | UpdateRequest.image_url => None
    | UpdateRequest.home_url => Some "https://donate.example.org/"
    end.

Definition resolve (path : string) : string :=
  "https://donate.example.org" ++ path.

(** A provider that accepts every agreement and answers with a link to
    itself and a link for the approval. *)
Definition agreements (body : PaypalSubscribe.PayPalSubscription)
    : Result PaypalSubscribe.SubscriptionResult :=
  Ok {| PaypalSubscribe.result_id := "AG1";
        PaypalSubscribe.links :=
          [{| PaypalSubscribe.href := "https://api.paypal.example/AG1";
              PaypalSubscribe.rel := "self";
              PaypalSubscribe.method := "GET" |};
           {| PaypalSubscribe.href := "https://paypal.example/approve/AG1";
              PaypalSubscribe.rel := "approve";
              PaypalSubscribe.method := "GET" |}] |}.

(** A plan that was never registered at the provider. *)
Definition unregistered_plan : SubscriptionPlan.t :=
  {| SubscriptionPlan.id := "plan-0"; SubscriptionPlan.basePackage := Scenario.vip;
     SubscriptionPlan.payment := {| productId := "DONATE-1"; planId := "" |} |}.

End ScenarioPaypal.

(** ** The scenario at the start page *)

Module ScenarioStart.

(** The sign test on the amounts of the scenario: [7.50] is above zero. *)
Definition sign_is_one (amount : string) : bool := String.eqb amount "7.50".

(** A form that offers 7,50 for the package of variable price. *)
Definition form (field : string) : option string :=
  if String.eqb field "price-2" then Some "7,50" else None.

Definition empty_form (field : string) : option string := None.

Definition start : StartController.Handled :=
  {| StartController.packages := [Scenario.vip; Scenario.other_package];
     StartController.selected := None;
     StartController.redirects := [];
     StartController.warnings := [] |}.

End ScenarioStart.

(** * Properties *)

(** ** Tables *)

Section TableFacts.

Variable A : Type.
Variable key : A -> string.

Lemma lookup_upsert (x : A) (rows : list A) :
  lookup key (key x) (upsert key x rows) = Some x.
Proof.
  unfold lookup.
  induction rows as [|r rows IH]; simpl.
  - now rewrite String.eqb_refl.
  - destruct (String.eqb (key r) (key x)) eqn:E; simpl.
    + now rewrite String.eqb_refl.
    + now rewrite E.
Qed.

Lemma lookup_key (k : string) (rows : list A) (x : A) :
  lookup key k rows = Some x -> key x = k.
Proof.
  unfold lookup. intros H.
  apply find_some in H. now apply String.eqb_eq.
Qed.

(** A row that is the only one to satisfy a test is the one a search by
    that test returns once it is saved. *)
Lemma find_upsert_fresh (test : A -> bool) (x : A) (rows : list A) :
  find test rows = None -> test x = true ->
  find test (upsert key x rows) = Some x.
Proof.
  intros Hnone Hx.
  induction rows as [|r rows IH]; simpl in *.
  - now rewrite Hx.
  - destruct (test r) eqn:Er; [discriminate|].
    destruct (String.eqb (key r) (key x)); simpl.
    + now rewrite Hx.
    + rewrite Er. now apply IH.
Qed.

End TableFacts.

(** ** The trace *)

Lemma redeem_calls_app (t u : list Event) :
  redeem_calls (t ++ u) = (redeem_calls t ++ redeem_calls u)%list.
Proof.
  induction t as [|e t IH]; simpl; [reflexivity|].
  destruct e; simpl; now rewrite ?IH.
Qed.

(** ** Reference *)

Example asString_steam :
  Reference.asString
    {| Reference.steamId := Some "76561198012102485";
       Reference.discordId := "1234";
       Reference.p := {| package_id := 7; package_name := "VIP";
                         package_description := "";
                         price := {| price_type := FIXED; currency := "USD";
                                     amount := "10.00" |} |} |}
  = "76561198012102485#7".
Proof. reflexivity. Qed.

Lemma or_else_falsy (a : option string) (b : string) :
  a = None \/ a = Some "" -> or_else a b = b.
Proof. intros [-> | ->]; reflexivity. Qed.

Lemma or_else_truthy (s b : string) :
  s <> "" -> or_else (Some s) b = s.
Proof. destruct s; simpl; congruence. Qed.

(** C10: [asString] is the discord id, [#] and the package id whenever the
    steam id is falsy, be it null or the empty string; it is the steam id,
    [#] and the package id for every non-empty steam id; and references that
    agree on steam id, discord id and package id have the same string. *)
Theorem asString_prefers_truthy_steamId :
  (forall r : Reference.t,
     Reference.steamId r = None \/ Reference.steamId r = Some "" ->
     Reference.asString r =
       Reference.discordId r ++ "#" ++ Number_toString (package_id (Reference.p r)))
  /\ (forall (r : Reference.t) (s : string),
        Reference.steamId r = Some s -> s <> "" ->
        Reference.asString r =
          s ++ "#" ++ Number_toString (package_id (Reference.p r)))
  /\ (forall r1 r2 : Reference.t,
        Reference.steamId r1 = Reference.steamId r2 ->
        Reference.discordId r1 = Reference.discordId r2 ->
        package_id (Reference.p r1) = package_id (Reference.p r2) ->
        Reference.asString r1 = Reference.asString r2).
Proof.
  repeat split.
  - intros r H. unfold Reference.asString. now rewrite or_else_falsy.
  - intros r s Hs Hne. unfold Reference.asString.
    rewrite Hs. now rewrite or_else_truthy.
  - intros r1 r2 H1 H2 H3. unfold Reference.asString. congruence.
Qed.

(** ** Order *)

Example create_then_pay :
  let o := Order.create "o-1" 0%Z
             {| OrderPayment.id := Some "PAY-1";
                OrderPayment.transactionId := None;
                OrderPayment.provider := Some "paypal" |}
             {| Reference.steamId := None; Reference.discordId := "1234";
                Reference.p := {| package_id := 1; package_name := "";
                                  package_description := "";
                                  price := {| price_type := FIXED;
                                              currency := "USD";
                                              amount := "1" |} |} |}
             None in
  fst (Order.pay "TX-1" o) = Ok tt
  /\ Order.status (snd (Order.pay "TX-1" o)) = PAID
  /\ fst (Order.paymentIntent
            {| OrderPayment.id := Some "PAY-2";
               OrderPayment.transactionId := None;
               OrderPayment.provider := None |} o)
     = Err (PlainError double_payment_intent).
Proof. repeat split. Qed.

(** C8: [pay] throws exactly when no payment is bound, the error is of the
    InvalidState kind and the order is left as it was; otherwise the
    transaction id is stamped on the payment and the status is PAID, and
    nothing else changes, [redeemedAt] included. *)
Theorem pay_throws_iff_no_payment (o : Order.t) (tx : string) :
  ((exists e, fst (Order.pay tx o) = Err e) <-> Order.payment o = None)
  /\ (forall e, fst (Order.pay tx o) = Err e ->
        InvalidState e /\ snd (Order.pay tx o) = o)
  /\ (forall y, Order.payment o = Some y ->
        let o' := snd (Order.pay tx o) in
        fst (Order.pay tx o) = Ok tt
        /\ Order.payment o' =
             Some {| OrderPayment.id := OrderPayment.id y;
                     OrderPayment.transactionId := Some tx;
                     OrderPayment.provider := OrderPayment.provider y |}
        /\ Order.status o' = PAID
        /\ Order.redeemedAt o' = Order.redeemedAt o
        /\ Order.id o' = Order.id o
        /\ Order.created o' = Order.created o
        /\ Order.reference o' = Order.reference o
        /\ Order.customMessage o' = Order.customMessage o).
Proof.
  unfold Order.pay.
  destruct (Order.payment o) as [y|] eqn:Hp; simpl.
  - split; [|split].
    + split; [intros [e He]; discriminate He | discriminate].
    + intros e He. discriminate He.
    + intros y' Hy. injection Hy as <-. repeat split.
  - split; [|split].
    + split; [reflexivity | intros _; eexists; reflexivity].
    + intros e He. injection He as <-. split; [|reflexivity].
      right. left. reflexivity.
    + discriminate.
Qed.

(** ** The Subscriptions service: lookups that fail *)

Section ServiceFacts.

Variable payment : Payment.
Variable redeem : RedeemPackage.

Lemma subscription_found (w : World) (id : string) (u : User) (s : Subscription.t) :
  lookup Subscription.id id (subscriptions w) = Some s ->
  user_discordId (Subscription.user s) = discord_id u ->
  Subscriptions.subscription id u w = (Ok s, w).
Proof.
  intros Hs Hu.
  unfold Subscriptions.subscription, bind, SubscriptionsRepository.find.
  rewrite Hs. cbv beta iota. rewrite Hu, String.eqb_refl. reflexivity.
Qed.

Lemma subscription_of_other_user (w : World) (id : string) (u : User)
    (s : Subscription.t) :
  lookup Subscription.id id (subscriptions w) = Some s ->
  user_discordId (Subscription.user s) <> discord_id u ->
  Subscriptions.subscription id u w = (Err SubscriptionNotFound, w).
Proof.
  intros Hs Hu.
  unfold Subscriptions.subscription, bind, SubscriptionsRepository.find.
  rewrite Hs. cbv beta iota. apply String.eqb_neq in Hu. rewrite Hu. reflexivity.
Qed.

Lemma subscription_unknown (w : World) (id : string) (u : User) :
  lookup Subscription.id id (subscriptions w) = None ->
  Subscriptions.subscription id u w = (Err SubscriptionNotFound, w).
Proof.
  intros Hs.
  unfold Subscriptions.subscription, bind, SubscriptionsRepository.find.
  rewrite Hs. reflexivity.
Qed.

(** C2: for a payment id under which no Subscription is stored,
    [redeemSubscriptionPayment] fails with SubscriptionNotFound and leaves
    the world as it was: no Order is created or persisted. *)
Theorem redeem_unknown_payment (w : World) (paymentId tx : string) :
  SubscriptionsRepository.by_payment paymentId (subscriptions w) = None ->
  Subscriptions.redeemSubscriptionPayment redeem paymentId tx w
  = (Err SubscriptionNotFound, w).
Proof.
  intros Hnone.
  unfold Subscriptions.redeemSubscriptionPayment, bind,
    SubscriptionsRepository.findByPayment.
  rewrite Hnone. reflexivity.
Qed.

(** C6: for a package without a persisted plan, [subscribe] fails with
    PlanNotFound and leaves the world as it was: the gateway is not
    called and no Subscription is persisted. *)
Theorem subscribe_without_plan (w : World) (p : Package) (u : User) :
  SubscriptionPlanRepository.by_package p (subscriptionPlans w) = None ->
  Subscriptions.subscribe payment p u w = (Err PlanNotFound, w).
Proof.
  intros Hnone.
  unfold Subscriptions.subscribe, bind, SubscriptionPlanRepository.findByPackage.
  rewrite Hnone. reflexivity.
Qed.

(** C7: for a stored Subscription and a user of another discord id,
    [viewSubscription] and [cancel] fail with SubscriptionNotFound and touch
    nothing, which is also what they do for an id under which nothing is
    stored. *)
Theorem foreign_subscription_not_found (w : World) (s : Subscription.t) (u : User) :
  lookup Subscription.id (Subscription.id s) (subscriptions w) = Some s ->
  user_discordId (Subscription.user s) <> discord_id u ->
  Subscriptions.viewSubscription (Subscription.id s) u w
    = (Err SubscriptionNotFound, w)
  /\ Subscriptions.cancel payment (Subscription.id s) u w
    = (Err SubscriptionNotFound, w)
  /\ (forall unknown : string,
        lookup Subscription.id unknown (subscriptions w) = None ->
        Subscriptions.viewSubscription unknown u w
          = (Err SubscriptionNotFound, w)
        /\ Subscriptions.cancel payment unknown u w
          = (Err SubscriptionNotFound, w)).
Proof.
  intros Hs Hu. repeat split.
  - unfold Subscriptions.viewSubscription, bind.
    now rewrite (@subscription_of_other_user w (Subscription.id s) u s Hs Hu).
  - unfold Subscriptions.cancel, bind.
    now rewrite (@subscription_of_other_user w (Subscription.id s) u s Hs Hu).
  - unfold Subscriptions.viewSubscription, bind.
    now rewrite subscription_unknown.
  - unfold Subscriptions.cancel, bind.
    now rewrite subscription_unknown.
Qed.

End ServiceFacts.

(** ** The Subscriptions service: a billing cycle *)

Section BillingCycle.

Variable payment : Payment.
Variable redeem : RedeemPackage.

Lemma redeemed_keeps (d : option Date) (o : Order.t) :
  Order.id (redeemed d o) = Order.id o
  /\ Order.created (redeemed d o) = Order.created o
  /\ Order.reference (redeemed d o) = Order.reference o
  /\ Order.customMessage (redeemed d o) = Order.customMessage o
  /\ Order.status (redeemed d o) = Order.status o
  /\ Order.payment (redeemed d o) = Order.payment o.
Proof. destruct d; repeat split. Qed.

(** C1: when the Subscription [s] is found under payment id [PID] and its
    plan [pl] is stored, [redeemSubscriptionPayment PID TX] persists [s] in
    state ACTIVE, creates and persists an Order with payment
    [{id: PID, transactionId: TX}], status PAID and the reference of the
    subscriber and the plan's package, and invokes the redeem engine exactly
    once, with that Order and the subscriber as target, in a world that
    holds both records.  It returns that Order as the engine leaves it,
    that is with the [redeemedAt] the engine has assigned and otherwise the
    same, once the engine has returned (an error of the engine is the error
    of the call); the Order stored under its id afterwards is the one
    created or the one returned. *)
Theorem redeem_subscription_payment (w : World) (PID TX : string)
    (s : Subscription.t) (pl : SubscriptionPlan.t) :
  SubscriptionsRepository.by_payment PID (subscriptions w) = Some s ->
  lookup SubscriptionPlan.id (Subscription.planId s) (subscriptionPlans w)
    = Some pl ->
  let active := Subscription.with_state ACTIVE s in
  let order :=
    {| Order.id := uuids w (S (tick w));
       Order.created := clock w (tick w);
       Order.reference :=
         {| Reference.steamId := Some (user_steamId (Subscription.user s));
            Reference.discordId := user_discordId (Subscription.user s);
            Reference.p := SubscriptionPlan.basePackage pl |};
       Order.customMessage := None;
       Order.redeemedAt := None;
       Order.status := PAID;
       Order.payment :=
         Some {| OrderPayment.id := Some PID;
                 OrderPayment.transactionId := Some TX;
                 OrderPayment.provider := None |} |} in
  let target :=
    {| target_steamId := user_steamId (Subscription.user s);
       target_discordId := user_discordId (Subscription.user s) |} in
  let out := Subscriptions.redeemSubscriptionPayment redeem PID TX w in
  (exists called : World,
     let answer := redeem_redeem redeem called order target in
     let returned := redeemed (redeemedAt_assigned answer) order in
     fst out = match redemption answer with
               | inl e => Err e
               | inr _ => Ok returned
               end
     /\ subscriptions called = subscriptions (snd out)
     /\ lookup Order.id (Order.id order) (orders called) = Some order
     /\ lookup Order.id (Order.id order) (orders (snd out))
        = Some (if order_saved answer then returned else order)
     /\ Order.payment returned = Order.payment order
     /\ Order.status returned = PAID
     /\ Order.reference returned = Order.reference order
     /\ Order.id returned = Order.id order)
  /\ subscriptions (snd out) = upsert Subscription.id active (subscriptions w)
  /\ lookup Subscription.id (Subscription.id s) (subscriptions (snd out))
     = Some active
  /\ trace (snd out)
     = (trace w
        ++ [SubscriptionSaved active; OrderSaved order; Redeem order target]
        ++ match fst out with
           | inl _ => []
           | inr returned =>
               [Emit "successfulSubscriptionExecution" target returned]
           end)%list
  /\ redeem_calls (trace (snd out))
     = (redeem_calls (trace w) ++ [(order, target)])%list.
Proof.
  intros Hs Hpl active order target out.
  assert (Hsub : lookup Subscription.id (Subscription.id s)
                   (upsert Subscription.id active (subscriptions w))
                 = Some active)
    by apply (lookup_upsert Subscription.id active).
  assert (Hord : lookup Order.id (Order.id order)
                   (upsert Order.id order (orders w)) = Some order)
    by apply (lookup_upsert Order.id order).
  subst out.
  unfold Subscriptions.redeemSubscriptionPayment, bind,
    SubscriptionsRepository.findByPayment, SubscriptionPlanRepository.find.
  rewrite Hs. cbn [subscriptionPlans]. rewrite Hpl.
  unfold redeemed_by.
  cbn -[upsert lookup String.eqb redeemed].
  unfold OrderPayment.with_transactionId.
  cbn -[upsert lookup String.eqb redeemed].
  fold active. fold order. fold target.
  match goal with
  | |- context [redeem_redeem redeem ?W order target] =>
      set (called := W)
  end.
  set (answer := redeem_redeem redeem called order target).
  destruct (redeemed_keeps (redeemedAt_assigned answer) order)
    as (Kid & _ & Kref & _ & Kst & Kpay).
  assert (Hstored :
            lookup Order.id (Order.id order)
              (upsert Order.id (redeemed (redeemedAt_assigned answer) order)
                 (upsert Order.id order (orders w)))
            = Some (redeemed (redeemedAt_assigned answer) order)).
  { rewrite <- Kid at 1. apply lookup_upsert. }
  destruct (redemption answer) as [e|[]] eqn:Hr,
    (order_saved answer) eqn:Hsv;
    cbn -[upsert lookup String.eqb redeemed];
    (split; [exists called; fold answer; cbn zeta; rewrite Hr, Hsv;
             repeat split; try assumption; reflexivity|]);
    repeat split; try assumption;
    rewrite ?redeem_calls_app; cbn; rewrite ?app_nil_r, <- ?app_assoc;
    reflexivity.
Qed.

End BillingCycle.

(** ** The Subscriptions service: subscribing and cancelling *)

Section Agreements.

Variable payment : Payment.
Variable redeem : RedeemPackage.

(** C3, on the code: when a plan is persisted for the package and the
    gateway answers with an agreement, [subscribe] throws a TypeError after
    the gateway call, since [Subscription.create] is handed the agreement id
    as its user; no Subscription is persisted, so that a lookup by the
    agreement id finds what it found before. *)
Theorem subscribe_throws_after_gateway (w : World) (p : Package) (u : User)
    (plan : SubscriptionPlan.t) (agreement : PendingSubscription) :
  SubscriptionPlanRepository.by_package p (subscriptionPlans w) = Some plan ->
  payment_subscribe payment w plan u = Ok agreement ->
  let out := Subscriptions.subscribe payment p u w in
  fst out = Err (PlainError id_of_undefined_steam)
  /\ subscriptions (snd out) = subscriptions w
  /\ trace (snd out) = (trace w ++ [PaymentSubscribe plan u])%list
  /\ SubscriptionsRepository.findByPayment (pending_id agreement) (snd out)
     = (fst (SubscriptionsRepository.findByPayment (pending_id agreement) w),
        snd out).
Proof.
  intros Hplan Hgw. cbn zeta.
  unfold Subscriptions.subscribe, bind, external,
    SubscriptionPlanRepository.findByPackage.
  rewrite Hplan, Hgw. cbn.
  repeat split.
  unfold SubscriptionsRepository.findByPayment,
    SubscriptionsRepository.by_payment. cbn.
  destruct (find _ (subscriptions w)); reflexivity.
Qed.

Lemma cancel_run (w : World) (s : Subscription.t) (u : User) :
  lookup Subscription.id (Subscription.id s) (subscriptions w) = Some s ->
  user_discordId (Subscription.user s) = discord_id u ->
  Subscriptions.cancel payment (Subscription.id s) u w
  = match payment_cancelSubscription payment w s with
    | inl e => (Err e, log (PaymentCancelSubscription s) w)
    | inr _ =>
        (Ok tt,
         log (SubscriptionSaved (Subscription.cancel s))
           (with_subscriptions
              (upsert Subscription.id (Subscription.cancel s) (subscriptions w))
              (log (PaymentCancelSubscription s) w)))
    end.
Proof.
  intros Hs Hu.
  unfold Subscriptions.cancel, bind.
  rewrite (@subscription_found w (Subscription.id s) u s Hs Hu).
  unfold external, SubscriptionsRepository.save.
  destruct (payment_cancelSubscription payment w s); reflexivity.
Qed.

(** C5: for a stored Subscription and its owner, [cancel] calls the
    gateway's [cancelSubscription] first.  When that call fails, its error
    is the outcome and the stored Subscription is what it was; when it
    returns, the CANCELLED state is persisted after it. *)
Theorem cancel_after_gateway (w : World) (s : Subscription.t) (u : User) :
  lookup Subscription.id (Subscription.id s) (subscriptions w) = Some s ->
  user_discordId (Subscription.user s) = discord_id u ->
  let out := Subscriptions.cancel payment (Subscription.id s) u w in
  match payment_cancelSubscription payment w s with
  | inl e =>
      fst out = Err e
      /\ subscriptions (snd out) = subscriptions w
      /\ lookup Subscription.id (Subscription.id s) (subscriptions (snd out))
         = Some s
      /\ trace (snd out) = (trace w ++ [PaymentCancelSubscription s])%list
  | inr _ =>
      fst out = Ok tt
      /\ lookup Subscription.id (Subscription.id s) (subscriptions (snd out))
         = Some (Subscription.with_state CANCELLED s)
      /\ trace (snd out)
         = (trace w ++ [PaymentCancelSubscription s;
                        SubscriptionSaved (Subscription.with_state CANCELLED s)])%list
  end.
Proof.
  intros Hs Hu out. subst out.
  rewrite (@cancel_run w s u Hs Hu).
  destruct (payment_cancelSubscription payment w s) as [e|[]];
    cbn -[upsert lookup].
  - repeat split. exact Hs.
  - repeat split.
    + apply (lookup_upsert Subscription.id (Subscription.cancel s)).
    + now rewrite <- app_assoc.
Qed.

End Agreements.

(** ** The state machine of a Subscription *)

Section Cancelled.

Variable payment : Payment.
Variable redeem : RedeemPackage.

Lemma redeem_activates (w : World) (PID TX : string)
    (s : Subscription.t) (pl : SubscriptionPlan.t) :
  SubscriptionsRepository.by_payment PID (subscriptions w) = Some s ->
  lookup SubscriptionPlan.id (Subscription.planId s) (subscriptionPlans w)
    = Some pl ->
  subscriptions (snd (Subscriptions.redeemSubscriptionPayment redeem PID TX w))
  = upsert Subscription.id (Subscription.with_state ACTIVE s) (subscriptions w).
Proof.
  intros Hs Hpl.
  unfold Subscriptions.redeemSubscriptionPayment, bind,
    SubscriptionsRepository.findByPayment, SubscriptionPlanRepository.find.
  rewrite Hs. cbn [subscriptionPlans]. rewrite Hpl.
  unfold redeemed_by.
  cbn -[upsert lookup String.eqb redeemed].
  match goal with
  | |- context [redeem_redeem redeem ?W ?o ?t] =>
      destruct (redemption (redeem_redeem redeem W o t)),
        (order_saved (redeem_redeem redeem W o t))
  end; reflexivity.
Qed.

(** C4, as the code has it: a CANCELLED Subscription stays CANCELLED under
    [cancel] and [agreeBilling], on the object and in the store, and no
    operation makes it PENDING; [Subscription.pay] and
    [redeemSubscriptionPayment] assign ACTIVE whatever the state was, so a
    billing event makes a CANCELLED Subscription ACTIVE. *)
Theorem cancelled_until_billed (s : Subscription.t) :
  Subscription.state s = CANCELLED ->
  Subscription.state (Subscription.cancel s) = CANCELLED
  /\ (forall paymentId,
        Subscription.state (Subscription.agreeBilling paymentId s) = CANCELLED)
  /\ (forall (w : World) (u : User),
        lookup Subscription.id (Subscription.id s) (subscriptions w) = Some s ->
        exists s',
          lookup Subscription.id (Subscription.id s)
            (subscriptions
               (snd (Subscriptions.cancel payment (Subscription.id s) u w)))
          = Some s'
          /\ Subscription.state s' = CANCELLED)
  /\ (forall at_ uuid tx prov pk,
        Subscription.state (snd (Subscription.pay at_ uuid tx prov pk s))
        = ACTIVE)
  /\ (forall (w : World) (PID TX : string) (pl : SubscriptionPlan.t),
        SubscriptionsRepository.by_payment PID (subscriptions w) = Some s ->
        lookup SubscriptionPlan.id (Subscription.planId s)
          (subscriptionPlans w) = Some pl ->
        lookup Subscription.id (Subscription.id s)
          (subscriptions
             (snd (Subscriptions.redeemSubscriptionPayment redeem PID TX w)))
        = Some (Subscription.with_state ACTIVE s)).
Proof.
  intros Hst. split; [reflexivity|]. split; [|split; [|split]].
  - intros paymentId. exact Hst.
  - intros w u Hs.
    destruct (String.eqb (user_discordId (Subscription.user s)) (discord_id u))
      eqn:Hu.
    + apply String.eqb_eq in Hu.
      rewrite (@cancel_run payment w s u Hs Hu).
      destruct (payment_cancelSubscription payment w s) as [e|[]].
      * exists s. split; [exact Hs | exact Hst].
      * exists (Subscription.cancel s). split; [|reflexivity].
        apply (lookup_upsert Subscription.id (Subscription.cancel s)).
    + apply String.eqb_neq in Hu.
      unfold Subscriptions.cancel, bind.
      rewrite (@subscription_of_other_user w (Subscription.id s) u s Hs Hu).
      exists s. split; [exact Hs | exact Hst].
  - reflexivity.
  - intros w PID TX pl Hs Hpl.
    rewrite (@redeem_activates w PID TX s pl Hs Hpl).
    apply (lookup_upsert Subscription.id (Subscription.with_state ACTIVE s)).
Qed.

End Cancelled.

(** C4, as stated, fails: a billing event for the CANCELLED subscription of
    the scenario leaves it ACTIVE, through [Subscription.pay] and through
    [redeemSubscriptionPayment]. *)
Lemma cancelled_is_not_terminal :
  let s := Scenario.subscription_of CANCELLED in
  let w := Scenario.world [s] in
  Subscription.state s = CANCELLED
  /\ Subscription.state
       (snd (Subscription.pay 1600000000000%Z "uuid-0" "TX1" "paypal" Scenario.vip s))
     = ACTIVE
  /\ lookup Subscription.id "sub-1" (subscriptions w) = Some s
  /\ lookup Subscription.id "sub-1"
       (subscriptions
          (snd (Subscriptions.redeemSubscriptionPayment Scenario.engine
                  "AG1" "TX1" w)))
     = Some (Scenario.subscription_of ACTIVE).
Proof. repeat split. Qed.

(** ** Plan upsert *)

Section Upsert.

Variable client : World -> Request -> Result Response.

(** One step of a run of the adapter: the answer of the client to the
    request at the head of the run. *)
Ltac client_answers :=
  match goal with
  | |- context [client ?w ?r] =>
      let E := fresh "E" in
      destruct (client w r) as [?e|?resp] eqn:E; cbn -[Z.eqb]
  | |- context [if ?c then _ else _] =>
      destruct c; cbn -[Z.eqb]
  end.

(** An upsert over a plan with a provider plan id ends with a plan of the
    same logical id, or with an error of the client. *)
Lemma persist_existing (w : World) (p : Package) (sp : SubscriptionPlan.t) :
  truthy (planId (SubscriptionPlan.payment sp)) = true ->
  match PaypalPayment.persistSubscription client p (Some sp) w with
  | (inr again, _) =>
      SubscriptionPlan.id again = SubscriptionPlan.id sp
      /\ SubscriptionPlan.basePackage again = p
  | (inl e, _) => exists w0 r, client w0 r = Err e
  end.
Proof.
  intros Hplan.
  unfold PaypalPayment.persistSubscription. rewrite Hplan.
  unfold PaypalPayment.updateProduct, PaypalPayment.createProduct,
    PaypalPayment.updatePlan, PaypalPayment.plan, PaypalPayment.product,
    PaypalPayment.execute, external, bind, ret.
  cbn -[Z.eqb].
  repeat client_answers; try (split; reflexivity); eauto.
Qed.

(** C9: when [persistSubscription(P)] has returned a plan that carries a
    provider plan id, [persistSubscription(P, result)], in any world,
    returns a plan of the same logical id for [P], whatever productId and
    planId the provider answers with; the only other outcome is an error
    of the PayPal client. *)
Theorem upsert_keeps_logical_id (w w' : World) (p : Package)
    (first : SubscriptionPlan.t) :
  fst (PaypalPayment.persistSubscription client p None w) = Ok first ->
  planId (SubscriptionPlan.payment first) <> "" ->
  match PaypalPayment.persistSubscription client p (Some first) w' with
  | (inr again, _) =>
      SubscriptionPlan.id again = SubscriptionPlan.id first
      /\ SubscriptionPlan.basePackage again = p
  | (inl e, _) => exists w0 r, client w0 r = Err e
  end.
Proof.
  intros _ Hne. apply persist_existing.
  destruct (planId (SubscriptionPlan.payment first)); [congruence | reflexivity].
Qed.

End Upsert.

(** The fake adapter draws a new id on every upsert, whatever plan is
    passed. *)
Remark fake_upsert_draws_new_id (w : World) (p : Package)
    (sp : option SubscriptionPlan.t) :
  fst (FakePayment.persistSubscription p sp w)
  = Ok (SubscriptionPlan.create (uuids w (S (S (tick w)))) p
          (uuids w (tick w)) (uuids w (S (tick w)))).
Proof. reflexivity. Qed.

(** ** The scenario, run *)

Lemma asString_prefers_truthy_steamId_witness :
  Reference.asString
    {| Reference.steamId := Some ""; Reference.discordId := "1001";
       Reference.p := Scenario.vip |} = "1001#1"
  /\ Reference.asString
       {| Reference.steamId := Some "76561198012102485";
          Reference.discordId := "1001";
          Reference.p := Scenario.vip |} = "76561198012102485#1".
Proof.
  destruct asString_prefers_truthy_steamId as (Hfalsy & Htruthy & _).
  split.
  - apply (Hfalsy {| Reference.steamId := Some ""; Reference.discordId := "1001";
                     Reference.p := Scenario.vip |}).
    right. reflexivity.
  - apply (Htruthy {| Reference.steamId := Some "76561198012102485";
                      Reference.discordId := "1001";
                      Reference.p := Scenario.vip |} "76561198012102485").
    + reflexivity.
    + discriminate.
Defined.

Lemma pay_throws_iff_no_payment_witness :
  let o := Order.createDeferred "uuid-0" 1600000000000%Z
             {| Reference.steamId := None; Reference.discordId := "1001";
                Reference.p := Scenario.vip |} None in
  Order.payment o = None
  /\ exists e, fst (Order.pay "TX1" o) = Err e.
Proof.
  intros o. split; [reflexivity|].
  apply (proj1 (pay_throws_iff_no_payment o "TX1")). reflexivity.
Defined.

Lemma redeem_subscription_payment_witness :
  let w := Scenario.world [Scenario.subscription_of PENDING] in
  let out :=
    Subscriptions.redeemSubscriptionPayment Scenario.engine "AG1" "TX1" w in
  let order redeemedAt :=
    {| Order.id := "uuid-1";
       Order.created := 1600000000000%Z;
       Order.reference :=
         {| Reference.steamId := Some "76561198012102485";
            Reference.discordId := "1001";
            Reference.p := Scenario.vip |};
       Order.customMessage := None;
       Order.redeemedAt := redeemedAt;
       Order.status := PAID;
       Order.payment :=
         Some {| OrderPayment.id := Some "AG1";
                 OrderPayment.transactionId := Some "TX1";
                 OrderPayment.provider := None |} |} in
  SubscriptionsRepository.by_payment "AG1" (subscriptions w)
    = Some (Scenario.subscription_of PENDING)
  /\ lookup SubscriptionPlan.id "plan-1" (subscriptionPlans w)
     = Some Scenario.vip_plan
  /\ lookup Subscription.id "sub-1" (subscriptions (snd out))
     = Some (Scenario.subscription_of ACTIVE)
  /\ redeem_calls (trace (snd out))
     = [(order None,
         {| target_steamId := "76561198012102485";
            target_discordId := "1001" |})]
  /\ fst out = Ok (order (Some 1600000000500%Z))
  /\ lookup Order.id "uuid-1" (orders (snd out))
     = Some (order (Some 1600000000500%Z)).
Proof.
  intros w out order.
  pose proof (@redeem_subscription_payment Scenario.engine w "AG1" "TX1"
                (Scenario.subscription_of PENDING) Scenario.vip_plan
                eq_refl eq_refl) as H.
  cbv zeta in H.
  destruct H as ((called & Hret & _ & _ & Hstored & _) & _ & Hsub & _ & Hcalls).
  split; [reflexivity|]. split; [reflexivity|].
  split; [exact Hsub|]. split; [exact Hcalls|].
  split; [exact Hret | exact Hstored].
Defined.

Lemma redeem_unknown_payment_witness :
  SubscriptionsRepository.by_payment "AG2"
    (subscriptions (Scenario.world [Scenario.subscription_of PENDING])) = None
  /\ Subscriptions.redeemSubscriptionPayment Scenario.engine "AG2" "TX1"
       (Scenario.world [Scenario.subscription_of PENDING])
     = (Err SubscriptionNotFound,
        Scenario.world [Scenario.subscription_of PENDING]).
Proof.
  split; [reflexivity|].
  apply (@redeem_unknown_payment Scenario.engine
           (Scenario.world [Scenario.subscription_of PENDING]) "AG2" "TX1").
  reflexivity.
Defined.

Lemma subscribe_throws_after_gateway_witness :
  let w := Scenario.world [] in
  let out := Subscriptions.subscribe Scenario.gateway Scenario.vip Scenario.alice w in
  SubscriptionPlanRepository.by_package Scenario.vip (subscriptionPlans w)
    = Some Scenario.vip_plan
  /\ fst out = Err (PlainError id_of_undefined_steam)
  /\ subscriptions (snd out) = []
  /\ trace (snd out) = [PaymentSubscribe Scenario.vip_plan Scenario.alice]
  /\ fst (SubscriptionsRepository.findByPayment "AG1" (snd out))
     = Err SubscriptionNotFound.
Proof.
  intros w out.
  pose proof (@subscribe_throws_after_gateway Scenario.gateway w Scenario.vip
                Scenario.alice Scenario.vip_plan
                {| pending_id := "AG1";
                   approvalLink := "https://example.com/approveSubscription" |}
                eq_refl eq_refl) as H.
  cbv zeta in H.
  destruct H as (Herr & Hstore & Htrace & Hfind).
  split; [reflexivity|]. split; [exact Herr|].
  split; [exact Hstore|]. split; [exact Htrace|].
  exact (f_equal fst Hfind).
Defined.

Lemma cancelled_until_billed_witness :
  Subscription.state (Scenario.subscription_of CANCELLED) = CANCELLED
  /\ Subscription.state
       (Subscription.agreeBilling "AG9" (Scenario.subscription_of CANCELLED))
     = CANCELLED
  /\ Subscription.state
       (snd (Subscription.pay 1600000000000%Z "uuid-0" "TX1" "paypal"
               Scenario.vip (Scenario.subscription_of CANCELLED)))
     = ACTIVE.
Proof.
  destruct (@cancelled_until_billed Scenario.gateway Scenario.engine
              (Scenario.subscription_of CANCELLED) eq_refl)
    as (_ & Hagree & _ & Hpay & _).
  split; [reflexivity|]. split; [apply Hagree | apply Hpay].
Defined.

Lemma cancel_after_gateway_witness :
  let s := Scenario.subscription_of ACTIVE in
  let w := Scenario.world [s] in
  lookup Subscription.id "sub-1" (subscriptions w) = Some s
  /\ user_discordId (Subscription.user s) = discord_id Scenario.alice
  /\ fst (Subscriptions.cancel Scenario.gateway_down "sub-1" Scenario.alice w)
     = Err (GatewayFailure "timeout")
  /\ subscriptions
       (snd (Subscriptions.cancel Scenario.gateway_down "sub-1" Scenario.alice w))
     = [s]
  /\ subscriptions
       (snd (Subscriptions.cancel Scenario.gateway "sub-1" Scenario.alice w))
     = [Scenario.subscription_of CANCELLED]
  /\ trace (snd (Subscriptions.cancel Scenario.gateway "sub-1" Scenario.alice w))
     = [PaymentCancelSubscription s;
        SubscriptionSaved (Scenario.subscription_of CANCELLED)].
Proof.
  intros s w.
  pose proof (@cancel_after_gateway Scenario.gateway_down w s Scenario.alice
                eq_refl eq_refl) as Hdown.
  pose proof (@cancel_after_gateway Scenario.gateway w s Scenario.alice
                eq_refl eq_refl) as Hup.
  cbv zeta in Hdown, Hup.
  destruct Hdown as (Herr & Hsame & _ & _).
  destruct Hup as (_ & _ & Htrace).
  split; [reflexivity|]. split; [reflexivity|].
  split; [exact Herr|]. split; [exact Hsame|].
  split; [reflexivity | exact Htrace].
Defined.

Lemma subscribe_without_plan_witness :
  SubscriptionPlanRepository.by_package Scenario.other_package
    (subscriptionPlans (Scenario.world [])) = None
  /\ Subscriptions.subscribe Scenario.gateway Scenario.other_package
       Scenario.alice (Scenario.world [])
     = (Err PlanNotFound, Scenario.world []).
Proof.
  split; [reflexivity|].
  apply (@subscribe_without_plan Scenario.gateway (Scenario.world [])
           Scenario.other_package Scenario.alice).
  reflexivity.
Defined.

Lemma foreign_subscription_not_found_witness :
  let s := Scenario.subscription_of ACTIVE in
  let w := Scenario.world [s] in
  lookup Subscription.id "sub-1" (subscriptions w) = Some s
  /\ user_discordId (Subscription.user s) <> discord_id Scenario.mallory
  /\ Subscriptions.viewSubscription "sub-1" Scenario.mallory w
     = (Err SubscriptionNotFound, w)
  /\ Subscriptions.cancel Scenario.gateway "sub-1" Scenario.mallory w
     = (Err SubscriptionNotFound, w)
  /\ Subscriptions.viewSubscription "sub-2" Scenario.mallory w
     = (Err SubscriptionNotFound, w).
Proof.
  intros s w.
  assert (Hother : user_discordId (Subscription.user s)
                   <> discord_id Scenario.mallory) by discriminate.
  destruct (@foreign_subscription_not_found Scenario.gateway w s
              Scenario.mallory eq_refl Hother) as (Hview & Hcancel & Hunknown).
  split; [reflexivity|]. split; [exact Hother|].
  split; [exact Hview|]. split; [exact Hcancel|].
  exact (proj1 (Hunknown "sub-2" eq_refl)).
Defined.

Lemma upsert_keeps_logical_id_witness :
  let w := Scenario.world [] in
  let first :=
    {| SubscriptionPlan.id := "uuid-0"; SubscriptionPlan.basePackage := Scenario.vip;
       SubscriptionPlan.payment := {| productId := "DONATE-1"; planId := "P-1" |} |} in
  fst (PaypalPayment.persistSubscription Scenario.paypal Scenario.vip None w)
    = Ok first
  /\ planId (SubscriptionPlan.payment first) <> ""
  /\ match PaypalPayment.persistSubscription Scenario.paypal Scenario.vip
             (Some first) w with
     | (inr again, _) =>
         SubscriptionPlan.id again = "uuid-0"
         /\ SubscriptionPlan.basePackage again = Scenario.vip
     | (inl e, _) => exists w0 r, Scenario.paypal w0 r = Err e
     end.
Proof.
  intros w first.
  assert (Hfirst : fst (PaypalPayment.persistSubscription Scenario.paypal
                          Scenario.vip None w) = Ok first) by reflexivity.
  assert (Hne : planId (SubscriptionPlan.payment first) <> "") by discriminate.
  split; [exact Hfirst|]. split; [exact Hne|].
  exact (@upsert_keeps_logical_id Scenario.paypal w w Scenario.vip first
           Hfirst Hne).
Defined.


(** * Further properties *)

(** ** The lifecycle of an Order *)

(** [paymentIntent] throws exactly when a payment is bound already, with an
    error of the InvalidState kind and the order left as it was; otherwise
    it binds the payment and changes nothing else, the status included. *)
Theorem paymentIntent_binds_once (o : Order.t) (y : OrderPayment.t) :
  ((exists e, fst (Order.paymentIntent y o) = Err e) <-> Order.payment o <> None)
  /\ (forall e, fst (Order.paymentIntent y o) = Err e ->
        InvalidState e /\ snd (Order.paymentIntent y o) = o)
  /\ (Order.payment o = None ->
        let o' := snd (Order.paymentIntent y o) in
        fst (Order.paymentIntent y o) = Ok tt
        /\ Order.payment o' = Some y
        /\ Order.status o' = Order.status o
        /\ Order.redeemedAt o' = Order.redeemedAt o
        /\ Order.id o' = Order.id o
        /\ Order.created o' = Order.created o
        /\ Order.reference o' = Order.reference o
        /\ Order.customMessage o' = Order.customMessage o).
Proof.
  unfold Order.paymentIntent.
  destruct (Order.payment o) as [y0|] eqn:Hp; simpl.
  - split; [|split].
    + split; [discriminate | intros _; eexists; reflexivity].
    + intros e He. injection He as <-. split; [|reflexivity].
      right. right. reflexivity.
    + discriminate.
  - split; [|split].
    + split; [intros [e He]; discriminate He | congruence].
    + intros e He. discriminate He.
    + intros _. repeat split.
Qed.

(** An order created without a payment cannot be paid; once the payment is
    bound, paying it gives the order that creating it with that payment and
    paying gives, and a second payment intent is refused. *)
Theorem deferred_order_flow (uuid : string) (at_ : Date) (r : Reference.t)
    (message : option string) (y : OrderPayment.t) (tx : string) :
  let deferred := Order.createDeferred uuid at_ r message in
  let bound := snd (Order.paymentIntent y deferred) in
  Order.pay tx deferred = (Err (PlainError pay_before_intent), deferred)
  /\ fst (Order.paymentIntent y deferred) = Ok tt
  /\ bound = Order.create uuid at_ y r message
  /\ Order.pay tx bound
     = (Ok tt,
        {| Order.id := uuid; Order.created := at_; Order.reference := r;
           Order.customMessage := message; Order.redeemedAt := None;
           Order.status := PAID;
           Order.payment := Some (OrderPayment.with_transactionId tx y) |})
  /\ (forall y', Order.paymentIntent y' bound
                 = (Err (PlainError double_payment_intent), bound)).
Proof. repeat split. Qed.

(** [pay] does not look at the status: paying a paid order succeeds again
    and the later transaction id replaces the earlier one, as if the first
    payment had not taken place. *)
Theorem pay_again_overwrites (o : Order.t) (tx1 tx2 : string) :
  Order.pay tx2 (snd (Order.pay tx1 o)) = Order.pay tx2 o.
Proof.
  unfold Order.pay.
  destruct (Order.payment o) as [y|] eqn:Hp; simpl.
  - reflexivity.
  - now rewrite Hp.
Qed.

Lemma order_call_keeps (c : OrderCalls.Call) (o : Order.t) :
  let o' := snd (OrderCalls.call c o) in
  Order.id o' = Order.id o
  /\ Order.created o' = Order.created o
  /\ Order.reference o' = Order.reference o
  /\ Order.customMessage o' = Order.customMessage o
  /\ Order.redeemedAt o' = Order.redeemedAt o
  /\ (Order.status o = PAID -> Order.status o' = PAID)
  /\ (forall y, Order.payment o = Some y ->
        exists y', Order.payment o' = Some y'
                   /\ OrderPayment.id y' = OrderPayment.id y
                   /\ OrderPayment.provider y' = OrderPayment.provider y).
Proof.
  destruct c as [tx|y0]; simpl;
    [unfold Order.pay | unfold Order.paymentIntent];
    destruct (Order.payment o) as [y1|] eqn:Hp; simpl;
    repeat split; auto; try discriminate;
    intros y Hy; injection Hy as <-; eexists; repeat split;
    try eassumption; reflexivity.
Qed.

(** Whatever calls of [pay] and [paymentIntent] are made on an order, in any
    order and whether they throw or not: its id, creation date, reference,
    message and [redeemedAt] stay, a PAID order stays PAID, and a bound
    payment stays bound to the same payment id and provider. *)
Theorem order_calls_keep (cs : list OrderCalls.Call) (o : Order.t) :
  let o' := OrderCalls.calls cs o in
  Order.id o' = Order.id o
  /\ Order.created o' = Order.created o
  /\ Order.reference o' = Order.reference o
  /\ Order.customMessage o' = Order.customMessage o
  /\ Order.redeemedAt o' = Order.redeemedAt o
  /\ (Order.status o = PAID -> Order.status o' = PAID)
  /\ (forall y, Order.payment o = Some y ->
        exists y', Order.payment o' = Some y'
                   /\ OrderPayment.id y' = OrderPayment.id y
                   /\ OrderPayment.provider y' = OrderPayment.provider y).
Proof.
  revert o. induction cs as [|c cs IH]; intros o; cbn zeta.
  - repeat split; auto. intros y Hy. exists y. auto.
  - cbn [OrderCalls.calls].
    destruct (order_call_keeps c o) as (H1 & H2 & H3 & H4 & H5 & H6 & H7).
    destruct (IH (snd (OrderCalls.call c o)))
      as (I1 & I2 & I3 & I4 & I5 & I6 & I7).
    repeat split; try congruence.
    + auto.
    + intros y Hy. destruct (H7 y Hy) as (y1 & Hy1 & Hid1 & Hpr1).
      destruct (I7 y1 Hy1) as (y2 & Hy2 & Hid2 & Hpr2).
      exists y2. repeat split; congruence.
Qed.

Lemma order_call_paid (c : OrderCalls.Call) (o : Order.t) :
  paid_with_transaction o -> paid_with_transaction (snd (OrderCalls.call c o)).
Proof.
  unfold paid_with_transaction. intros H.
  destruct c as [tx|y0]; simpl;
    [unfold Order.pay | unfold Order.paymentIntent];
    destruct (Order.payment o) as [y1|] eqn:Hp; simpl; intros Hst.
  - eexists. eexists. split; reflexivity.
  - rewrite Hp. exact (H Hst).
  - rewrite Hp. exact (H Hst).
  - destruct (H Hst) as (y & t & Hy & _). discriminate Hy.
Qed.

(** Every order made by [create] or [createDeferred] and then subjected to
    any calls of [pay] and [paymentIntent] is PAID only if it has a payment
    with a transaction id. *)
Theorem paid_orders_carry_transaction (cs : list OrderCalls.Call)
    (uuid : string) (at_ : Date) (r : Reference.t) (message : option string) :
  (forall y, paid_with_transaction
               (OrderCalls.calls cs (Order.create uuid at_ y r message)))
  /\ paid_with_transaction
       (OrderCalls.calls cs (Order.createDeferred uuid at_ r message)).
Proof.
  assert (Hall : forall cs o, paid_with_transaction o ->
                              paid_with_transaction (OrderCalls.calls cs o)).
  { clear. induction cs as [|c cs IH]; intros o Ho; cbn [OrderCalls.calls].
    - exact Ho.
    - apply IH. now apply order_call_paid. }
  split; [intros y|]; apply Hall; intros Hst; discriminate Hst.
Qed.

(** ** The lifecycle of a Subscription *)

(** [Subscription.pay] never throws, since the order it pays is created
    with a payment: it returns a PAID, unredeemed order for the
    subscription's payment id, the transaction id and the provider, with
    the reference of the subscriber and the package, and leaves the
    subscription ACTIVE and otherwise as it was. *)
Theorem subscription_pay_returns (at_ : Date) (uuid tx prov : string)
    (pk : Package) (s : Subscription.t) :
  Subscription.pay at_ uuid tx prov pk s
  = (Ok {| Order.id := uuid; Order.created := at_;
           Order.reference :=
             {| Reference.steamId := Some (user_steamId (Subscription.user s));
                Reference.discordId := user_discordId (Subscription.user s);
                Reference.p := pk |};
           Order.customMessage := None; Order.redeemedAt := None;
           Order.status := PAID;
           Order.payment :=
             Some {| OrderPayment.id := Subscription.payment_id s;
                     OrderPayment.transactionId := Some tx;
                     OrderPayment.provider := Some prov |} |},
     {| Subscription.id := Subscription.id s;
        Subscription.planId := Subscription.planId s;
        Subscription.payment_id := Subscription.payment_id s;
        Subscription.user := Subscription.user s;
        Subscription.state := ACTIVE |}).
Proof. reflexivity. Qed.

Lemma subscription_call_keeps (c : SubscriptionCalls.Call) (s : Subscription.t) :
  let s' := SubscriptionCalls.call c s in
  Subscription.id s' = Subscription.id s
  /\ Subscription.planId s' = Subscription.planId s
  /\ Subscription.user s' = Subscription.user s
  /\ (Subscription.state s' = PENDING ->
      Subscription.state s = PENDING /\ SubscriptionCalls.agrees c = true).
Proof.
  destruct c; cbn; repeat split; try discriminate; auto.
Qed.

(** Whatever calls of [cancel], [agreeBilling] and [pay] are made on a
    subscription: its id, plan and user stay, and it is PENDING afterwards
    only if it was PENDING before and every call was [agreeBilling]; no call
    leads back to PENDING. *)
Theorem subscription_calls_keep (cs : list SubscriptionCalls.Call)
    (s : Subscription.t) :
  let s' := SubscriptionCalls.calls cs s in
  Subscription.id s' = Subscription.id s
  /\ Subscription.planId s' = Subscription.planId s
  /\ Subscription.user s' = Subscription.user s
  /\ (Subscription.state s' = PENDING ->
      Subscription.state s = PENDING
      /\ forallb SubscriptionCalls.agrees cs = true).
Proof.
  unfold SubscriptionCalls.calls.
  revert s. induction cs as [|c cs IH]; intros s; cbn zeta.
  - repeat split; auto.
  - cbn [fold_left forallb].
    destruct (subscription_call_keeps c s) as (H1 & H2 & H3 & H4).
    destruct (IH (SubscriptionCalls.call c s)) as (I1 & I2 & I3 & I4).
    split; [congruence|]. split; [congruence|]. split; [congruence|].
    intros Hp. destruct (I4 Hp) as (Hc & Hall).
    destruct (H4 Hc) as (Hs & Hagree).
    split; [exact Hs|]. now rewrite Hagree, Hall.
Qed.

(** The abort link of a subscription made by [create] is available as long
    as the only calls on it are [agreeBilling]; after a [cancel] or a [pay],
    and whatever is called after that, [abortLink] throws
    SubscriptionNotPending. *)
Theorem abortLink_only_while_pending (cs : list SubscriptionCalls.Call)
    (uuid : string) (plan : SubscriptionPlan.t) (u : User) :
  let s := SubscriptionCalls.calls cs (Subscription.create uuid plan u) in
  (forallb SubscriptionCalls.agrees cs = true ->
   Subscription.abortLink s = Ok ("/subscriptions/" ++ uuid ++ "/abort")
   /\ Subscription.isActive s = true)
  /\ (forallb SubscriptionCalls.agrees cs = false ->
      Subscription.abortLink s = Err SubscriptionNotPending).
Proof.
  cbn zeta.
  destruct (subscription_calls_keep cs (Subscription.create uuid plan u))
    as (Hid & _ & _ & Hpending).
  split.
  - intros Hall.
    assert (Hst : forall cs s, forallb SubscriptionCalls.agrees cs = true ->
              Subscription.state (SubscriptionCalls.calls cs s)
              = Subscription.state s).
    { clear. unfold SubscriptionCalls.calls.
      induction cs as [|c cs IH]; intros s H; cbn in *; [reflexivity|].
      apply andb_prop in H. destruct H as (Hc & Hcs).
      rewrite (IH _ Hcs). destruct c; try discriminate. reflexivity. }
    specialize (Hst cs (Subscription.create uuid plan u) Hall).
    unfold Subscription.abortLink, Subscription.isActive.
    rewrite Hst, Hid. split; reflexivity.
  - intros Hnot. unfold Subscription.abortLink.
    destruct (Subscription.state
                (SubscriptionCalls.calls cs (Subscription.create uuid plan u)))
      eqn:Hst; try reflexivity.
    destruct (Hpending eq_refl) as (_ & Hall). congruence.
Qed.

(** ** Correlation tokens and product ids *)

Lemma to_int_digits (z : Z) :
  Z.to_int z <> Decimal.Pos Decimal.Nil /\ Z.to_int z <> Decimal.Neg Decimal.Nil.
Proof.
  split; intros H; pose proof (f_equal Z.of_int H) as H0;
    rewrite DecimalZ.of_to in H0; cbn in H0; subst z; discriminate H.
Qed.

Lemma Number_toString_inj (a b : Z) :
  Number_toString a = Number_toString b -> a = b.
Proof.
  unfold Number_toString. intros H.
  apply (f_equal NilZero.int_of_string) in H.
  destruct (to_int_digits a) as (Ha1 & Ha2).
  destruct (to_int_digits b) as (Hb1 & Hb2).
  rewrite !NilZero.isi in H by assumption.
  injection H as H. apply (f_equal Z.of_int) in H.
  now rewrite !DecimalZ.of_to in H.
Qed.

Lemma split_at_hash (a b x y : string) :
  occurs "#" a = false -> occurs "#" b = false ->
  a ++ "#" ++ x = b ++ "#" ++ y -> a = b /\ x = y.
Proof.
  revert b. induction a as [|c a IH]; intros [|d b] Ha Hb H; cbn in *.
  - injection H as H. now split.
  - injection H as Hd _. subst d.
    rewrite Ascii.eqb_refl in Hb. discriminate.
  - injection H as Hc _. subst c.
    rewrite Ascii.eqb_refl in Ha. discriminate.
  - injection H as Hc H. subst d.
    apply orb_false_elim in Ha. apply orb_false_elim in Hb.
    destruct (IH b (proj2 Ha) (proj2 Hb) H) as (-> & ->). now split.
Qed.

(** Two references have the same token exactly when they agree on the id
    the token shows (the steam id when it is truthy, else the discord id)
    and on the package id, provided neither shown id contains [#].  So the
    token identifies the purchaser's id and the package, and nothing else:
    not which of the two ids it shows. *)
Theorem token_identifies_id_and_package (r1 r2 : Reference.t) :
  let shown r := or_else (Reference.steamId r) (Reference.discordId r) in
  occurs "#" (shown r1) = false ->
  occurs "#" (shown r2) = false ->
  (Reference.asString r1 = Reference.asString r2 <->
   shown r1 = shown r2
   /\ package_id (Reference.p r1) = package_id (Reference.p r2)).
Proof.
  intros shown H1 H2. unfold Reference.asString. fold (shown r1) (shown r2).
  split.
  - intros H. destruct (split_at_hash _ _ _ _ H1 H2 H) as (Hs & Hn).
    split; [exact Hs | now apply Number_toString_inj].
  - intros (-> & ->). reflexivity.
Qed.

(** Packages share a provider product id exactly when they share their
    id. *)
Theorem asProductId_injective (p1 p2 : Package) :
  PaypalPayment.asProductId p1 = PaypalPayment.asProductId p2
  <-> package_id p1 = package_id p2.
Proof.
  unfold PaypalPayment.asProductId. split.
  - intros H. cbn in H. injection H as H. now apply Number_toString_inj.
  - intros ->. reflexivity.
Qed.

(** ** Plan upsert: what is asked of the provider *)

Lemma executed_app (t u : list Event) :
  executed (t ++ u) = (executed t ++ executed u)%list.
Proof.
  induction t as [|e t IH]; simpl; [reflexivity|].
  destruct e; simpl; now rewrite ?IH.
Qed.

Section UpsertRequests.

Variable client : World -> Request -> Result Response.

Ltac answers :=
  match goal with
  | |- context [client ?w ?r] =>
      let E := fresh "E" in
      destruct (client w r) as [?e|?resp] eqn:E; cbn -[Z.eqb PaypalPayment.asProductId]
  | |- context [if ?c then _ else _] =>
      let C := fresh "C" in
      destruct c eqn:C; cbn -[Z.eqb PaypalPayment.asProductId]
  end.

Ltac run_upsert :=
  unfold PaypalPayment.persistSubscription,
    PaypalPayment.updateProduct, PaypalPayment.createProduct,
    PaypalPayment.updatePlan, PaypalPayment.createPlan,
    PaypalPayment.plan, PaypalPayment.product,
    PaypalPayment.execute, external, bind, ret, v4;
  cbn -[Z.eqb PaypalPayment.asProductId].

Ltac requests_done :=
  cbn -[Z.eqb PaypalPayment.asProductId];
  rewrite ?executed_app, ?filter_app; cbn; rewrite ?app_nil_r.

(** A plan whose provider plan id is empty is taken for no plan at all. *)
Theorem plan_without_provider_id_is_new (w : World) (p : Package)
    (sp : SubscriptionPlan.t) :
  planId (SubscriptionPlan.payment sp) = "" ->
  PaypalPayment.persistSubscription client p (Some sp) w
  = PaypalPayment.persistSubscription client p None w.
Proof.
  intros H. unfold PaypalPayment.persistSubscription. rewrite H. reflexivity.
Qed.

(** An upsert over a plan with a provider plan id never asks the provider
    for a new plan, whatever the provider answers, draws no id and leaves
    the repositories alone. *)
Theorem upsert_never_creates_plan (w : World) (p : Package)
    (sp : SubscriptionPlan.t) :
  truthy (planId (SubscriptionPlan.payment sp)) = true ->
  let w' := snd (PaypalPayment.persistSubscription client p (Some sp) w) in
  filter creates_plan (executed (trace w'))
    = filter creates_plan (executed (trace w))
  /\ tick w' = tick w
  /\ subscriptionPlans w' = subscriptionPlans w
  /\ subscriptions w' = subscriptions w
  /\ orders w' = orders w.
Proof.
  intros Hplan. cbn zeta.
  unfold PaypalPayment.persistSubscription. rewrite Hplan.
  run_upsert.
  repeat answers; requests_done; repeat split; reflexivity.
Qed.

(** An upsert without a plan never asks the provider to update a plan.
    When it returns, the plan is for the package and its logical id is the
    next id of the supply; when it fails, with an error of the client, no id
    is drawn. *)
Theorem first_upsert_creates_plan (w : World) (p : Package) :
  let out := PaypalPayment.persistSubscription client p None w in
  filter updates_plan (executed (trace (snd out)))
    = filter updates_plan (executed (trace w))
  /\ match fst out with
     | inr created =>
         SubscriptionPlan.id created = uuids w (tick w)
         /\ SubscriptionPlan.basePackage created = p
         /\ tick (snd out) = S (tick w)
     | inl e => tick (snd out) = tick w /\ exists w0 r, client w0 r = Err e
     end.
Proof.
  cbn zeta. run_upsert.
  repeat answers; requests_done; repeat split; eauto.
Qed.

(** Every upsert begins by asking for the product of the package.  The
    product is created only when that answer does not have status 200, and
    updated only when it has. *)
Theorem upsert_looks_up_product_first (w : World) (p : Package)
    (sp : option SubscriptionPlan.t) :
  let w' := snd (PaypalPayment.persistSubscription client p sp w) in
  let asked := GetProductRequest (PaypalPayment.asProductId p) in
  (exists rest, executed (trace w') = (executed (trace w) ++ asked :: rest)%list)
  /\ (forall found, client w asked = Ok found -> statusCode found = 200%Z ->
        filter creates_product (executed (trace w'))
        = filter creates_product (executed (trace w)))
  /\ (forall found, client w asked = Ok found -> statusCode found <> 200%Z ->
        filter updates_product (executed (trace w'))
        = filter updates_product (executed (trace w)))
  /\ (forall e, client w asked = Err e ->
        executed (trace w') = (executed (trace w) ++ [asked])%list).
Proof.
  cbn zeta. split; [|split; [|split]].
  - run_upsert. destruct sp as [sp|];
      repeat answers; requests_done;
      rewrite <- ?app_assoc; cbn; eexists; reflexivity.
  - intros found Hfound H200. apply Z.eqb_eq in H200.
    run_upsert. rewrite Hfound. cbn -[Z.eqb PaypalPayment.asProductId]. rewrite H200.
    destruct sp as [sp|]; repeat answers; requests_done; reflexivity.
  - intros found Hfound H200. apply Z.eqb_neq in H200.
    run_upsert. rewrite Hfound. cbn -[Z.eqb PaypalPayment.asProductId]. rewrite H200.
    destruct sp as [sp|]; repeat answers; requests_done; reflexivity.
  - intros e He. run_upsert. rewrite He. requests_done. reflexivity.
Qed.

(** With a provider that answers a request for a plan with the plan of
    that id, an upsert over a plan with a provider plan id returns a plan
    with the same provider plan id. *)
Theorem upsert_keeps_provider_plan_id (w : World) (p : Package)
    (sp : SubscriptionPlan.t) :
  (forall w0 id found, client w0 (GetPlanRequest id) = Ok found ->
                       resource_id (result found) = id) ->
  truthy (planId (SubscriptionPlan.payment sp)) = true ->
  forall again,
    fst (PaypalPayment.persistSubscription client p (Some sp) w) = Ok again ->
    planId (SubscriptionPlan.payment again)
    = planId (SubscriptionPlan.payment sp).
Proof.
  intros Hecho Hplan again.
  unfold PaypalPayment.persistSubscription. rewrite Hplan.
  run_upsert.
  repeat answers; intros H; try discriminate H;
    injection H as <-; cbn;
    repeat match goal with
           | E : client _ (GetPlanRequest _) = inr _ |- _ =>
               apply Hecho in E
           end; congruence.
Qed.

End UpsertRequests.

(** With a supply of ids that never repeats, the fake adapter does not keep
    the logical id: an upsert over the plan it has just returned returns a
    plan of another id. *)
Theorem fake_upsert_changes_id (w : World) (p : Package) :
  (forall i j, uuids w i = uuids w j -> i = j) ->
  exists first w1 again w2,
    FakePayment.persistSubscription p None w = (Ok first, w1)
    /\ FakePayment.persistSubscription p (Some first) w1 = (Ok again, w2)
    /\ SubscriptionPlan.id again <> SubscriptionPlan.id first.
Proof.
  intros Hinj. do 4 eexists. split; [reflexivity|]. split; [reflexivity|].
  cbn. intros H. apply Hinj in H. lia.
Qed.

(** ** The patch of an update request *)

Section Patch.

Import UpdateRequest.

Variable original : Original.

Lemma requestBody_from (product : Entries) (ops : list PatchOp) :
  fold_left (push_entry original) product ops
  = (ops ++ requestBody original product)%list.
Proof.
  unfold requestBody.
  revert ops. induction product as [|e product IH]; intros ops; cbn [fold_left].
  - now rewrite app_nil_r.
  - rewrite (IH (push_entry original ops e)), (IH (push_entry original [] e)).
    rewrite app_assoc. f_equal.
    unfold push_entry.
    destruct (snd e), (getProperty original (fst e)); cbn;
      now rewrite ?app_nil_r.
Qed.

Lemma requestBody_cons (e : Field * option string) (product : Entries) :
  requestBody original (e :: product)
  = (push_entry original [] e ++ requestBody original product)%list.
Proof.
  unfold requestBody at 1. cbn [fold_left]. apply requestBody_from.
Qed.

(** Every operation of the patch comes from an entry of the update and
    names its property.  An [add] is for a property the original lacks, a
    [replace] and a [remove] for one it has; [add] and [replace] carry the
    entry's value, and [remove] is for an entry whose value is undefined. *)
Theorem patch_fits_original (product : Entries) (o : PatchOp) :
  In o (requestBody original product) ->
  exists f v,
    In (f, v) product
    /\ path o = "/" ++ field_name f
    /\ match op o with
       | op_add => original f = None /\ v <> None /\ value o = v
       | op_replace => original f <> None /\ v <> None /\ value o = v
       | op_remove => original f <> None /\ v = None /\ value o = None
       end.
Proof.
  induction product as [|[f v] product IH]; [intros []|].
  rewrite requestBody_cons. intros Hin. apply in_app_or in Hin.
  destruct Hin as [Hin|Hin].
  - exists f, v. split; [now left|].
    unfold push_entry, getProperty in Hin. cbn [fst snd] in Hin.
    destruct v as [x|], (original f) as [old|] eqn:Hold; cbn in Hin;
      try contradiction;
      (destruct Hin as [<-|Hnone]; [|contradiction]);
      cbn; repeat split; congruence.
  - destruct (IH Hin) as (f' & v' & Hin' & Hrest).
    exists f', v'. split; [now right | exact Hrest].
Qed.

(** Every entry of the update that has a value gives an operation that
    carries it, and every entry without a value whose property the
    original has gives a [remove]; the patch has at most one operation per
    entry. *)
Theorem patch_covers_update (product : Entries) :
  (forall f x, In (f, Some x) product ->
     exists o, In o (requestBody original product)
               /\ path o = "/" ++ field_name f /\ value o = Some x
               /\ op o <> op_remove)
  /\ (forall f, In (f, None) product -> original f <> None ->
        exists o, In o (requestBody original product)
                  /\ path o = "/" ++ field_name f /\ op o = op_remove)
  /\ List.length (requestBody original product) <= List.length product.
Proof.
  induction product as [|[f v] product (IH1 & IH2 & IH3)].
  - repeat split; try (intros; contradiction). cbn. lia.
  - rewrite requestBody_cons. repeat split.
    + intros f' x [H|H].
      * injection H as <- ->.
        unfold push_entry, getProperty. cbn [fst snd].
        destruct (original f); eexists; (split; [apply in_or_app; left; now left|]);
          cbn; repeat split; discriminate.
      * destruct (IH1 f' x H) as (o & Ho & Hrest).
        exists o. split; [apply in_or_app; now right | exact Hrest].
    + intros f' [H|H] Hold.
      * injection H as <- ->.
        unfold push_entry, getProperty. cbn [fst snd].
        destruct (original f); [|congruence].
        eexists. split; [apply in_or_app; left; now left|]. now split.
      * destruct (IH2 f' H Hold) as (o & Ho & Hrest).
        exists o. split; [apply in_or_app; now right | exact Hrest].
    + rewrite length_app. cbn [List.length].
      unfold push_entry, getProperty. cbn [fst snd].
      destruct v, (original f); cbn; lia.
Qed.

(** The first body of [updatePlan] has two operations, on the description
    and then on the name, each an [add] or a [replace] with the new text:
    it never removes. *)
Theorem updatePlan_body (text title : string) :
  exists o1 o2,
    PaypalBodies.updatePlan text title original = [o1; o2]
    /\ path o1 = "/description" /\ value o1 = Some text
    /\ op o1 = match original description with
              | Some _ => op_replace
              | None => op_add
              end
    /\ path o2 = "/name" /\ value o2 = Some title
    /\ op o2 = match original name with
              | Some _ => op_replace
              | None => op_add
              end.
Proof.
  unfold PaypalBodies.updatePlan, requestBody, push_entry, getProperty.
  cbn [fold_left fst snd].
  destruct (original description), (original name); cbn;
    do 2 eexists; repeat split.
Qed.

(** The body of [updateProduct] never sends a public URL that mentions
    localhost: an operation on the home URL that carries a value carries
    the public URL, which then does not mention localhost, and when it
    does the home URL the provider has is removed. *)
Theorem updateProduct_home_url (publicUrl : string) (p : Package) (o : PatchOp) :
  In o (PaypalBodies.updateProduct publicUrl original p) ->
  path o = "/home_url" ->
  match value o with
  | Some v => v = publicUrl /\ includes "localhost" publicUrl = false
  | None => op o = op_remove /\ includes "localhost" publicUrl = true
            /\ original home_url <> None
  end.
Proof.
  unfold PaypalBodies.updateProduct, PaypalBodies.homeUrl.
  intros Hin Hpath.
  destruct (patch_fits_original _ _ Hin) as (f & v & Hentry & Hp & Hop).
  rewrite Hpath in Hp.
  assert (Hf : f = home_url) by (destruct f; cbn in Hp; congruence).
  subst f.
  cbn in Hentry.
  destruct Hentry as [H|[H|[H|[H|[]]]]]; try discriminate H.
  injection H as Hv.
  destruct (includes "localhost" publicUrl) eqn:Hlocal; subst v;
    destruct (op o), (value o); intuition congruence.
Qed.

End Patch.

(** ** The PayPal adapter: subscribing *)

Section SubscribeRequest.

Import PaypalSubscribe.

Variable title : option string.
Variable default_name : string.
Variable resolve : string -> string.

(** For a subscription that is not PENDING, [subscribe] throws
    SubscriptionNotPending whatever the provider would answer: the cancel
    URL of the request cannot be built. *)
Theorem subscribe_refuses_unless_pending
    (client : PayPalSubscription -> Result SubscriptionResult)
    (sub : Subscription.t) (plan : SubscriptionPlan.t) (u : User) :
  Subscription.state sub <> PENDING ->
  subscribe title default_name resolve client sub plan u
  = Err SubscriptionNotPending.
Proof.
  intros H. unfold subscribe, Subscription.abortLink.
  destruct (Subscription.state sub); congruence.
Qed.

(** For a PENDING subscription, the provider is asked for an agreement on
    the plan's provider plan id, with the reference token of the user and
    the package as custom id and the subscription's own page and abort page
    as return and cancel URLs.  An error of the provider is the outcome; an
    answer gives the agreement id with the address of its first [approve]
    link; an answer without such a link makes the call throw although the
    agreement exists. *)
Theorem subscribe_asks_for_agreement
    (client : PayPalSubscription -> Result SubscriptionResult)
    (sub : Subscription.t) (plan : SubscriptionPlan.t) (u : User) :
  Subscription.state sub = PENDING ->
  let asked :=
    {| plan_id := planId (SubscriptionPlan.payment plan);
       custom_id :=
         or_else (Some (steam_id u)) (discord_id u) ++ "#"
         ++ Number_toString (package_id (SubscriptionPlan.basePackage plan));
       application_context :=
         {| brand_name := or_else title default_name;
            shipping_preference := "NO_SHIPPING";
            user_action := "SUBSCRIBE_NOW";
            return_url := resolve ("/subscriptions/" ++ Subscription.id sub);
            cancel_url :=
              resolve ("/subscriptions/" ++ Subscription.id sub ++ "/abort") |} |} in
  let out := subscribe title default_name resolve client sub plan u in
  match client asked with
  | inl e => out = Err e
  | inr answer =>
      (forall before l after,
         links answer = (before ++ l :: after)%list ->
         rel l = "approve" ->
         (forall l0, In l0 before -> rel l0 <> "approve") ->
         out = Ok {| pending_id := result_id answer; approvalLink := href l |})
      /\ ((forall l, In l (links answer) -> rel l <> "approve") ->
          out = Err (PlainError href_of_undefined))
  end.
Proof.
  intros Hst asked out. subst out.
  unfold subscribe, Subscription.abortLink. rewrite Hst.
  unfold communityTitle, Reference.asString, Subscription.asLink.
  cbn [Reference.steamId Reference.discordId Reference.p].
  fold asked.
  destruct (client asked) as [e|answer]; [reflexivity|].
  split.
  - intros before l after Hlinks Hrel Hbefore. rewrite Hlinks.
    assert (Hfind : find (fun l0 => String.eqb (rel l0) "approve")
                      (before ++ l :: after) = Some l).
    { clear Hlinks. induction before as [|l0 before IH]; cbn.
      - now rewrite Hrel.
      - assert (H0 : rel l0 <> "approve") by (apply Hbefore; now left).
        apply String.eqb_neq in H0. rewrite H0.
        apply IH. intros l1 H1. apply Hbefore. now right. }
    now rewrite Hfind.
  - intros Hnone.
    assert (Hfind : find (fun l0 => String.eqb (rel l0) "approve")
                      (links answer) = None).
    { induction (links answer) as [|l0 ls IH]; cbn; [reflexivity|].
      assert (H0 : rel l0 <> "approve") by (apply Hnone; now left).
      apply String.eqb_neq in H0. rewrite H0.
      apply IH. intros l1 H1. apply Hnone. now right. }
    now rewrite Hfind.
Qed.

End SubscribeRequest.

(** ** Tables, continued *)

Section MoreTableFacts.

Variable A : Type.
Variable key : A -> string.

Lemma lookup_upsert_other (k : string) (x : A) (rows : list A) :
  key x <> k -> lookup key k (upsert key x rows) = lookup key k rows.
Proof.
  intros Hk. apply String.eqb_neq in Hk. unfold lookup.
  induction rows as [|r rows IH]; cbn.
  - now rewrite Hk.
  - destruct (String.eqb (key r) (key x)) eqn:E; cbn.
    + apply String.eqb_eq in E. rewrite Hk, E, Hk. reflexivity.
    + now rewrite IH.
Qed.

Lemma upsert_new (x : A) (rows : list A) :
  lookup key (key x) rows = None -> upsert key x rows = (rows ++ [x])%list.
Proof.
  unfold lookup. induction rows as [|r rows IH]; cbn; [reflexivity|].
  destruct (String.eqb (key r) (key x)); [discriminate|].
  intros H. now rewrite IH.
Qed.

Lemma lookup_snoc_none (k : string) (x : A) (rows : list A) :
  lookup key k rows = None -> key x <> k ->
  lookup key k (rows ++ [x]) = None.
Proof.
  unfold lookup. intros Hrows Hk. apply String.eqb_neq in Hk.
  induction rows as [|r rows IH]; cbn in *.
  - now rewrite Hk.
  - destruct (String.eqb (key r) k); [discriminate|]. now apply IH.
Qed.

Lemma In_upsert (x : A) (rows : list A) : In x (upsert key x rows).
Proof.
  induction rows as [|r rows IH]; cbn; [now left|].
  destruct (String.eqb (key r) (key x)); [now left | now right].
Qed.

Lemma lookup_of_member (x : A) (rows : list A) :
  In x rows -> exists y, lookup key (key x) rows = Some y.
Proof.
  unfold lookup. induction rows as [|r rows IH]; [intros []|].
  intros [->|H]; cbn.
  - rewrite String.eqb_refl. now eexists.
  - destruct (String.eqb (key r) (key x)); [now eexists | now apply IH].
Qed.

(** Saving a row that passes a test in place of the row a search by that
    test returns makes the search return the saved row. *)
Lemma find_upsert_same (test : A -> bool) (x y : A) (rows : list A) :
  find test rows = Some y -> key x = key y -> test x = true ->
  find test (upsert key x rows) = Some x.
Proof.
  intros Hfind Hkey Hx.
  induction rows as [|r rows IH]; cbn in *; [discriminate|].
  destruct (String.eqb (key r) (key x)) eqn:E; cbn.
  - now rewrite Hx.
  - destruct (test r) eqn:Er.
    + injection Hfind as ->. rewrite Hkey, String.eqb_refl in E. discriminate.
    + now apply IH.
Qed.

(** A row saved over a row of its key that was saved just before takes its
    place. *)
Lemma upsert_again (x x' : A) (rows : list A) :
  key x' = key x -> upsert key x' (upsert key x rows) = upsert key x' rows.
Proof.
  intros Hk. induction rows as [|r rows IH]; cbn.
  - now rewrite <- Hk, String.eqb_refl.
  - destruct (String.eqb (key r) (key x)) eqn:E; rewrite <- Hk in E; cbn.
    + now rewrite <- Hk, String.eqb_refl, E.
    + rewrite E. now f_equal.
Qed.

End MoreTableFacts.

Lemma by_payment_id (PID : string) (rows : list Subscription.t)
    (s : Subscription.t) :
  SubscriptionsRepository.by_payment PID rows = Some s ->
  Subscription.payment_id s = Some PID.
Proof.
  unfold SubscriptionsRepository.by_payment. intros H.
  apply find_some in H. destruct H as (_ & H).
  destruct (Subscription.payment_id s) as [x|]; cbn in H; [|discriminate].
  apply String.eqb_eq in H. now subst.
Qed.

(** ** The Subscriptions service: what the operations leave behind *)

Section ServiceWorld.

Variable payment : Payment.
Variable redeem : RedeemPackage.

Lemma redeem_world (w : World) (PID TX : string)
    (s : Subscription.t) (pl : SubscriptionPlan.t) :
  SubscriptionsRepository.by_payment PID (subscriptions w) = Some s ->
  lookup SubscriptionPlan.id (Subscription.planId s) (subscriptionPlans w)
    = Some pl ->
  let w' := snd (Subscriptions.redeemSubscriptionPayment redeem PID TX w) in
  exists d : option Date,
    subscriptions w'
      = upsert Subscription.id (Subscription.with_state ACTIVE s) (subscriptions w)
    /\ orders w'
       = upsert Order.id (redeemed d (billed_order w PID TX s pl)) (orders w)
    /\ subscriptionPlans w' = subscriptionPlans w
    /\ uuids w' = uuids w
    /\ clock w' = clock w
    /\ tick w' = S (S (tick w))
    /\ redeem_calls (trace w')
       = (redeem_calls (trace w)
          ++ [(billed_order w PID TX s pl, billed_target s)])%list.
Proof.
  intros Hs Hpl. cbn zeta.
  unfold Subscriptions.redeemSubscriptionPayment, bind,
    SubscriptionsRepository.findByPayment, SubscriptionPlanRepository.find.
  rewrite Hs. cbn [subscriptionPlans]. rewrite Hpl.
  unfold redeemed_by.
  cbn -[upsert lookup String.eqb redeemed].
  change (snd (Order.pay TX _)) with (billed_order w PID TX s pl).
  match goal with
  | |- context [redeem_redeem redeem ?W ?o ?t] =>
      set (answer := redeem_redeem redeem W o t)
  end.
  destruct (order_saved answer) eqn:Hsv.
  - exists (redeemedAt_assigned answer).
    destruct (redemption answer) as [e|[]];
      cbn -[upsert lookup String.eqb redeemed billed_order];
      (split; [reflexivity|]);
      (split; [apply upsert_again;
               apply (proj1 (redeemed_keeps _ _))|]);
      repeat split; rewrite ?redeem_calls_app; cbn; now rewrite ?app_nil_r.
  - exists None.
    destruct (redemption answer) as [e|[]];
      cbn -[upsert lookup String.eqb redeemed billed_order];
      repeat split; rewrite ?redeem_calls_app; cbn; now rewrite ?app_nil_r.
Qed.

(** When the gateway refuses the agreement, [subscribe] fails with the
    gateway's error after that one call: no Subscription is persisted and
    no id is drawn. *)
Theorem subscribe_gateway_failure (w : World) (p : Package) (u : User)
    (plan : SubscriptionPlan.t) (e : Error) :
  SubscriptionPlanRepository.by_package p (subscriptionPlans w) = Some plan ->
  payment_subscribe payment w plan u = Err e ->
  let out := Subscriptions.subscribe payment p u w in
  fst out = Err e
  /\ subscriptions (snd out) = subscriptions w
  /\ tick (snd out) = tick w
  /\ trace (snd out) = (trace w ++ [PaymentSubscribe plan u])%list.
Proof.
  intros Hplan Hgw. cbn zeta.
  unfold Subscriptions.subscribe, bind, external,
    SubscriptionPlanRepository.findByPackage.
  rewrite Hplan, Hgw. repeat split.
Qed.

(** No operation of the service writes a plan, whatever its outcome, and
    [viewSubscription] changes nothing at all. *)
Theorem service_never_writes_plans (w : World) (p : Package) (u : User)
    (id PID TX : string) :
  subscriptionPlans (snd (Subscriptions.subscribe payment p u w))
    = subscriptionPlans w
  /\ subscriptionPlans
       (snd (Subscriptions.redeemSubscriptionPayment redeem PID TX w))
     = subscriptionPlans w
  /\ subscriptionPlans (snd (Subscriptions.cancel payment id u w))
     = subscriptionPlans w
  /\ snd (Subscriptions.viewSubscription id u w) = w.
Proof.
  unfold Subscriptions.subscribe, Subscriptions.redeemSubscriptionPayment,
    Subscriptions.cancel, Subscriptions.viewSubscription,
    Subscriptions.subscription, bind, external,
    SubscriptionPlanRepository.findByPackage, SubscriptionPlanRepository.find,
    SubscriptionsRepository.findByPayment, SubscriptionsRepository.find,
    OrderRepository.findByPaymentOrder.
  repeat split.
  - destruct (SubscriptionPlanRepository.by_package p (subscriptionPlans w));
      [|reflexivity].
    destruct (payment_subscribe payment w t u); reflexivity.
  - destruct (SubscriptionsRepository.by_payment PID (subscriptions w)) as [s|];
      [|reflexivity].
    destruct (lookup SubscriptionPlan.id (Subscription.planId s)
                (subscriptionPlans w)) as [pl|]; [|reflexivity].
    unfold redeemed_by. cbn -[upsert lookup String.eqb redeemed].
    match goal with
    | |- context [redeem_redeem redeem ?W ?o ?t] =>
        destruct (redemption (redeem_redeem redeem W o t)),
          (order_saved (redeem_redeem redeem W o t))
    end; reflexivity.
  - destruct (lookup Subscription.id id (subscriptions w)) as [s|];
      [|reflexivity].
    cbn. destruct (String.eqb _ _); [|reflexivity].
    cbn. destruct (payment_cancelSubscription payment w s); reflexivity.
  - destruct (lookup Subscription.id id (subscriptions w)) as [s|];
      [|reflexivity].
    cbn. destruct (String.eqb _ _); [|reflexivity].
    cbn. destruct (lookup SubscriptionPlan.id _ _); reflexivity.
Qed.

(** A billing event and a cancellation write one subscription only: every
    other id is looked up as before, whatever the outcome. *)
Theorem other_subscriptions_untouched (w : World) (u : User)
    (id PID TX k : string) :
  ((forall s, SubscriptionsRepository.by_payment PID (subscriptions w) = Some s ->
              Subscription.id s <> k) ->
   lookup Subscription.id k
     (subscriptions (snd (Subscriptions.redeemSubscriptionPayment redeem PID TX w)))
   = lookup Subscription.id k (subscriptions w))
  /\ (id <> k ->
      lookup Subscription.id k
        (subscriptions (snd (Subscriptions.cancel payment id u w)))
      = lookup Subscription.id k (subscriptions w)).
Proof.
  split.
  - intros Hk.
    destruct (SubscriptionsRepository.by_payment PID (subscriptions w))
      as [s|] eqn:Hs.
    + destruct (lookup SubscriptionPlan.id (Subscription.planId s)
                  (subscriptionPlans w)) as [pl|] eqn:Hpl.
      * destruct (redeem_world w PID TX Hs Hpl) as (d & -> & _).
        apply lookup_upsert_other. cbn. now apply Hk.
      * unfold Subscriptions.redeemSubscriptionPayment, bind,
          SubscriptionsRepository.findByPayment, SubscriptionPlanRepository.find.
        rewrite Hs. cbn [subscriptionPlans]. now rewrite Hpl.
    + unfold Subscriptions.redeemSubscriptionPayment, bind,
        SubscriptionsRepository.findByPayment.
      now rewrite Hs.
  - intros Hk.
    unfold Subscriptions.cancel, Subscriptions.subscription, bind, external,
      SubscriptionsRepository.find.
    destruct (lookup Subscription.id id (subscriptions w)) as [s|] eqn:Hs;
      [|reflexivity].
    cbn. destruct (String.eqb _ _); [|reflexivity].
    cbn. destruct (payment_cancelSubscription payment w s); [reflexivity|].
    cbn -[upsert lookup]. apply lookup_upsert_other. cbn.
    now rewrite (lookup_key _ _ _ Hs).
Qed.

End ServiceWorld.

(** ** The Subscriptions service: operations in sequence *)

Section ServiceSequences.

Variable payment : Payment.
Variable redeem : RedeemPackage.

Lemma found_again_after_billing (w : World) (PID TX : string)
    (s : Subscription.t) (pl : SubscriptionPlan.t) :
  SubscriptionsRepository.by_payment PID (subscriptions w) = Some s ->
  lookup SubscriptionPlan.id (Subscription.planId s) (subscriptionPlans w)
    = Some pl ->
  let w1 := snd (Subscriptions.redeemSubscriptionPayment redeem PID TX w) in
  SubscriptionsRepository.by_payment PID (subscriptions w1)
    = Some (Subscription.with_state ACTIVE s)
  /\ lookup SubscriptionPlan.id (Subscription.planId s) (subscriptionPlans w1)
     = Some pl.
Proof.
  intros Hs Hpl. cbn zeta.
  destruct (@redeem_world redeem w PID TX s pl Hs Hpl)
    as (d & -> & _ & -> & _).
  split; [|exact Hpl].
  apply (@find_upsert_same _ Subscription.id _ _ s); [exact Hs | reflexivity|].
  cbn. rewrite (by_payment_id _ _ Hs). cbn. apply String.eqb_refl.
Qed.

(** A billing event delivered twice is billed twice: with ids of the supply
    that are new to the order store and differ, the second delivery of the
    same payment id and transaction id adds a second PAID order with the
    same payment after the first, each stored with the [redeemedAt] the
    engine has left it with, and the redeem engine is invoked for each. *)
Theorem redelivery_adds_second_order (w : World) (PID TX : string)
    (s : Subscription.t) (pl : SubscriptionPlan.t) :
  SubscriptionsRepository.by_payment PID (subscriptions w) = Some s ->
  lookup SubscriptionPlan.id (Subscription.planId s) (subscriptionPlans w)
    = Some pl ->
  let w1 := snd (Subscriptions.redeemSubscriptionPayment redeem PID TX w) in
  let w2 := snd (Subscriptions.redeemSubscriptionPayment redeem PID TX w1) in
  let o1 := billed_order w PID TX s pl in
  let o2 := billed_order w1 PID TX s pl in
  lookup Order.id (Order.id o1) (orders w) = None ->
  lookup Order.id (Order.id o2) (orders w) = None ->
  Order.id o1 <> Order.id o2 ->
  (exists d1 d2 : option Date,
     orders w2 = (orders w ++ [redeemed d1 o1; redeemed d2 o2])%list)
  /\ Order.status o1 = PAID /\ Order.status o2 = PAID
  /\ Order.payment o2 = Order.payment o1
  /\ Order.id o2 = uuids w (S (S (S (tick w))))
  /\ redeem_calls (trace w2)
     = (redeem_calls (trace w) ++ [(o1, billed_target s); (o2, billed_target s)])%list.
Proof.
  intros Hs Hpl w1 w2 o1 o2 Hnew1 Hnew2 Hdiff.
  destruct (@redeem_world redeem w PID TX s pl Hs Hpl)
    as (d1 & Hsub1 & Hord1 & Hplans1 & Hu1 & Hc1 & Ht1 & Hcalls1).
  destruct (@found_again_after_billing w PID TX s pl Hs Hpl) as (Hs1 & Hpl1).
  fold w1 in Hsub1, Hord1, Hplans1, Hu1, Hc1, Ht1, Hcalls1, Hs1, Hpl1.
  destruct (@redeem_world redeem w1 PID TX _ pl Hs1 Hpl1)
    as (d2 & _ & Hord2 & _ & _ & _ & _ & Hcalls2).
  fold w2 in Hord2, Hcalls2.
  change (billed_order w1 PID TX (Subscription.with_state ACTIVE s) pl)
    with o2 in Hord2, Hcalls2.
  change (billed_target (Subscription.with_state ACTIVE s))
    with (billed_target s) in Hcalls2.
  fold o1 in Hord1, Hcalls1.
  destruct (redeemed_keeps d1 o1) as (Kid1 & _).
  destruct (redeemed_keeps d2 o2) as (Kid2 & _).
  split; [|split; [|split; [|split; [|split]]]]; try reflexivity.
  - exists d1, d2. rewrite Hord2, Hord1.
    rewrite (@upsert_new _ Order.id (redeemed d1 o1) (orders w))
      by (rewrite Kid1; exact Hnew1).
    rewrite upsert_new.
    + now rewrite <- app_assoc.
    + rewrite Kid2. apply lookup_snoc_none; [exact Hnew2|].
      now rewrite Kid1.
  - subst o2. unfold billed_order. cbn. now rewrite Hu1, Ht1.
  - rewrite Hcalls2, Hcalls1. now rewrite <- app_assoc.
Qed.

(** After a billing event, the owner's view of the subscription shows it
    ACTIVE, with its plan, and the order of that event, with the
    [redeemedAt] the engine has left it with, is in its history. *)
Theorem billed_order_in_history (w : World) (PID TX : string)
    (s : Subscription.t) (pl : SubscriptionPlan.t) (u : User) :
  SubscriptionsRepository.by_payment PID (subscriptions w) = Some s ->
  lookup SubscriptionPlan.id (Subscription.planId s) (subscriptionPlans w)
    = Some pl ->
  user_discordId (Subscription.user s) = discord_id u ->
  let w1 := snd (Subscriptions.redeemSubscriptionPayment redeem PID TX w) in
  exists (view : ViewSubscription) (d : option Date),
    Subscriptions.viewSubscription (Subscription.id s) u w1 = (Ok view, w1)
    /\ view_subscription view = Subscription.with_state ACTIVE s
    /\ view_plan view = pl
    /\ In (redeemed d (billed_order w PID TX s pl)) (history view)
    /\ (forall o, In o (history view) ->
          exists y, Order.payment o = Some y /\ OrderPayment.id y = Some PID).
Proof.
  intros Hs Hpl Hu w1.
  destruct (@redeem_world redeem w PID TX s pl Hs Hpl)
    as (d & Hsub1 & Hord1 & Hplans1 & _).
  fold w1 in Hsub1, Hord1, Hplans1.
  assert (Hfind : Subscriptions.subscription (Subscription.id s) u w1
                  = (Ok (Subscription.with_state ACTIVE s), w1)).
  { apply subscription_found; [|exact Hu].
    rewrite Hsub1.
    apply (lookup_upsert Subscription.id (Subscription.with_state ACTIVE s)). }
  unfold Subscriptions.viewSubscription, bind. rewrite Hfind.
  unfold OrderRepository.findByPaymentOrder, SubscriptionPlanRepository.find.
  cbn [Subscription.planId Subscription.with_state Subscription.payment_id].
  rewrite Hplans1, Hpl, (by_payment_id _ _ Hs).
  eexists. exists d. split; [reflexivity|].
  cbn [view_subscription view_plan history].
  split; [reflexivity|]. split; [reflexivity|]. split.
  - apply filter_In. split.
    + rewrite Hord1. apply In_upsert.
    + unfold OrderRepository.paid_with.
      destruct (redeemed_keeps d (billed_order w PID TX s pl))
        as (_ & _ & _ & _ & _ & ->).
      cbn. apply String.eqb_refl.
  - intros o Ho. apply filter_In in Ho. destruct Ho as (_ & Ho).
    unfold OrderRepository.paid_with in Ho.
    destruct (Order.payment o) as [y|]; [|discriminate].
    exists y. split; [reflexivity|].
    destruct (OrderPayment.id y) as [x|]; cbn in Ho; [|discriminate].
    apply String.eqb_eq in Ho. now subst.
Qed.

(** The service bills as [Subscription.pay] does: the subscription it
    stores is the one [pay] leaves, and the order it stores agrees with the
    one [pay] returns for the plan's package in id, date, reference,
    message and status, and in the payment except that it names no
    provider; its [redeemedAt] is the engine's to set. *)
Theorem service_bills_like_entity (w : World) (PID TX prov : string)
    (s : Subscription.t) (pl : SubscriptionPlan.t) :
  SubscriptionsRepository.by_payment PID (subscriptions w) = Some s ->
  lookup SubscriptionPlan.id (Subscription.planId s) (subscriptionPlans w)
    = Some pl ->
  let w1 := snd (Subscriptions.redeemSubscriptionPayment redeem PID TX w) in
  let paid :=
    Subscription.pay (clock w (tick w)) (uuids w (S (tick w))) TX prov
      (SubscriptionPlan.basePackage pl) s in
  exists o y stored,
    fst paid = Ok o
    /\ Order.payment o = Some y
    /\ lookup Subscription.id (Subscription.id s) (subscriptions w1)
       = Some (snd paid)
    /\ lookup Order.id (Order.id o) (orders w1) = Some stored
    /\ Order.id stored = Order.id o
    /\ Order.created stored = Order.created o
    /\ Order.reference stored = Order.reference o
    /\ Order.customMessage stored = Order.customMessage o
    /\ Order.status stored = Order.status o
    /\ Order.payment stored
       = Some {| OrderPayment.id := OrderPayment.id y;
                 OrderPayment.transactionId := OrderPayment.transactionId y;
                 OrderPayment.provider := None |}.
Proof.
  intros Hs Hpl w1 paid.
  destruct (@redeem_world redeem w PID TX s pl Hs Hpl)
    as (d & Hsub1 & Hord1 & _).
  fold w1 in Hsub1, Hord1.
  destruct (redeemed_keeps d (billed_order w PID TX s pl))
    as (Kid & Kcr & Kref & Kmsg & Kst & Kpay).
  subst paid. cbn -[redeemed billed_order lookup upsert].
  do 2 eexists. exists (redeemed d (billed_order w PID TX s pl)).
  split; [reflexivity|]. split; [reflexivity|]. split.
  { rewrite Hsub1.
    apply (lookup_upsert Subscription.id (Subscription.with_state ACTIVE s)). }
  split.
  { assert (Hk : Order.id (redeemed d (billed_order w PID TX s pl))
                 = uuids w (S (tick w))) by (rewrite Kid; reflexivity).
    rewrite Hord1. cbn [Order.id]. rewrite <- Hk. apply lookup_upsert. }
  rewrite Kid, Kcr, Kref, Kmsg, Kst, Kpay, (by_payment_id _ _ Hs).
  repeat split.
Qed.

End ServiceSequences.

(** ** The scenario, run further *)

Lemma token_identifies_id_and_package_witness :
  let r1 :=
    {| Reference.steamId := Some "76561198012102485";
       Reference.discordId := "1001"; Reference.p := Scenario.vip |} in
  let r2 :=
    {| Reference.steamId := None;
       Reference.discordId := "76561198012102485";
       Reference.p := Scenario.vip |} in
  occurs "#" "76561198012102485" = false
  /\ Reference.asString r1 = Reference.asString r2.
Proof.
  intros r1 r2. split; [reflexivity|].
  apply (proj2 (token_identifies_id_and_package r1 r2 eq_refl eq_refl)).
  split; reflexivity.
Defined.

Lemma plan_without_provider_id_is_new_witness :
  planId (SubscriptionPlan.payment ScenarioPaypal.unregistered_plan) = ""
  /\ PaypalPayment.persistSubscription Scenario.paypal Scenario.vip
       (Some ScenarioPaypal.unregistered_plan) (Scenario.world [])
     = PaypalPayment.persistSubscription Scenario.paypal Scenario.vip None
         (Scenario.world []).
Proof.
  split; [reflexivity|].
  apply (@plan_without_provider_id_is_new Scenario.paypal (Scenario.world [])
           Scenario.vip ScenarioPaypal.unregistered_plan).
  reflexivity.
Defined.

Lemma upsert_never_creates_plan_witness :
  let w' :=
    snd (PaypalPayment.persistSubscription Scenario.paypal Scenario.vip
           (Some Scenario.vip_plan) (Scenario.world [])) in
  truthy (planId (SubscriptionPlan.payment Scenario.vip_plan)) = true
  /\ filter creates_plan (executed (trace w')) = []
  /\ tick w' = 0.
Proof.
  intros w'.
  destruct (@upsert_never_creates_plan Scenario.paypal (Scenario.world [])
              Scenario.vip Scenario.vip_plan eq_refl)
    as (Hnone & Htick & _).
  split; [reflexivity|]. split; [exact Hnone | exact Htick].
Defined.

Lemma upsert_keeps_provider_plan_id_witness :
  fst (PaypalPayment.persistSubscription Scenario.paypal Scenario.vip
         (Some Scenario.vip_plan) (Scenario.world []))
    = Ok Scenario.vip_plan
  /\ planId (SubscriptionPlan.payment Scenario.vip_plan) = "P-1".
Proof.
  split; [reflexivity|].
  apply (@upsert_keeps_provider_plan_id Scenario.paypal (Scenario.world [])
           Scenario.vip Scenario.vip_plan).
  - intros w0 id found H. cbn in H. injection H as <-. reflexivity.
  - reflexivity.
  - reflexivity.
Defined.

Lemma fake_upsert_changes_id_witness :
  exists first w1 again w2,
    FakePayment.persistSubscription Scenario.vip None (Scenario.world [])
      = (Ok first, w1)
    /\ FakePayment.persistSubscription Scenario.vip (Some first) w1
       = (Ok again, w2)
    /\ SubscriptionPlan.id again <> SubscriptionPlan.id first.
Proof.
  apply (fake_upsert_changes_id (Scenario.world []) Scenario.vip).
  intros i j H. cbn in H. injection H as H.
  apply Number_toString_inj in H. now apply Nat2Z.inj.
Defined.

Lemma patch_fits_original_witness :
  let o :=
    {| UpdateRequest.op := UpdateRequest.op_replace;
       UpdateRequest.path := "/name";
       UpdateRequest.value := Some "VIP+" |} in
  In o (UpdateRequest.requestBody ScenarioPaypal.provider_product
          [(UpdateRequest.name, Some "VIP+");
           (UpdateRequest.image_url, None)])
  /\ exists f v,
       In (f, v) [(UpdateRequest.name, Some "VIP+");
                  (UpdateRequest.image_url, None)]
       /\ UpdateRequest.path o = "/" ++ UpdateRequest.field_name f
       /\ ScenarioPaypal.provider_product f <> None
       /\ v <> None
       /\ UpdateRequest.value o = v.
Proof.
  intros o.
  assert (Hin : In o (UpdateRequest.requestBody ScenarioPaypal.provider_product
                        [(UpdateRequest.name, Some "VIP+");
                         (UpdateRequest.image_url, None)]))
    by (left; reflexivity).
  split; [exact Hin|].
  destruct (patch_fits_original ScenarioPaypal.provider_product _ o Hin)
    as (f & v & Hentry & Hpath & Hop).
  exists f, v. split; [exact Hentry|]. split; [exact Hpath | exact Hop].
Defined.

Lemma updateProduct_home_url_witness :
  let o :=
    {| UpdateRequest.op := UpdateRequest.op_remove;
       UpdateRequest.path := "/home_url";
       UpdateRequest.value := None |} in
  In o (PaypalBodies.updateProduct "http://localhost:8080/"
          ScenarioPaypal.provider_product Scenario.vip)
  /\ includes "localhost" "http://localhost:8080/" = true
  /\ ScenarioPaypal.provider_product UpdateRequest.home_url <> None.
Proof.
  intros o.
  assert (Hin : In o (PaypalBodies.updateProduct "http://localhost:8080/"
                        ScenarioPaypal.provider_product Scenario.vip))
    by (right; right; right; left; reflexivity).
  split; [exact Hin|].
  exact (proj2 (@updateProduct_home_url ScenarioPaypal.provider_product
                  "http://localhost:8080/" Scenario.vip o Hin eq_refl)).
Defined.

Lemma subscribe_refuses_unless_pending_witness :
  Subscription.state (Scenario.subscription_of ACTIVE) <> PENDING
  /\ PaypalSubscribe.subscribe (Some "Community") "Donations"
       ScenarioPaypal.resolve ScenarioPaypal.agreements
       (Scenario.subscription_of ACTIVE) Scenario.vip_plan Scenario.alice
     = Err SubscriptionNotPending.
Proof.
  assert (H : Subscription.state (Scenario.subscription_of ACTIVE) <> PENDING)
    by discriminate.
  split; [exact H|].
  exact (@subscribe_refuses_unless_pending (Some "Community") "Donations"
           ScenarioPaypal.resolve ScenarioPaypal.agreements
           (Scenario.subscription_of ACTIVE) Scenario.vip_plan Scenario.alice H).
Defined.

Lemma subscribe_asks_for_agreement_witness :
  Subscription.state (Scenario.subscription_of PENDING) = PENDING
  /\ PaypalSubscribe.subscribe None "Donations"
       ScenarioPaypal.resolve ScenarioPaypal.agreements
       (Scenario.subscription_of PENDING) Scenario.vip_plan Scenario.alice
     = Ok {| pending_id := "AG1";
             approvalLink := "https://paypal.example/approve/AG1" |}.
Proof.
  split; [reflexivity|].
  pose proof (@subscribe_asks_for_agreement None "Donations"
                ScenarioPaypal.resolve ScenarioPaypal.agreements
                (Scenario.subscription_of PENDING) Scenario.vip_plan
                Scenario.alice eq_refl) as H.
  cbv zeta in H. cbn [ScenarioPaypal.agreements] in H.
  destruct H as (Hfirst & _).
  apply (Hfirst [{| PaypalSubscribe.href := "https://api.paypal.example/AG1";
                    PaypalSubscribe.rel := "self";
                    PaypalSubscribe.method := "GET" |}]
                {| PaypalSubscribe.href := "https://paypal.example/approve/AG1";
                   PaypalSubscribe.rel := "approve";
                   PaypalSubscribe.method := "GET" |} []).
  - reflexivity.
  - reflexivity.
  - intros l0 [<-|[]]. discriminate.
Defined.

Lemma subscribe_gateway_failure_witness :
  let out :=
    Subscriptions.subscribe Scenario.gateway_down Scenario.vip Scenario.alice
      (Scenario.world []) in
  SubscriptionPlanRepository.by_package Scenario.vip
    (subscriptionPlans (Scenario.world [])) = Some Scenario.vip_plan
  /\ fst out = Err (GatewayFailure "timeout")
  /\ subscriptions (snd out) = []
  /\ trace (snd out) = [PaymentSubscribe Scenario.vip_plan Scenario.alice].
Proof.
  intros out.
  destruct (@subscribe_gateway_failure Scenario.gateway_down (Scenario.world [])
              Scenario.vip Scenario.alice Scenario.vip_plan
              (GatewayFailure "timeout") eq_refl eq_refl)
    as (Herr & Hsubs & _ & Htrace).
  split; [reflexivity|]. split; [exact Herr|].
  split; [exact Hsubs | exact Htrace].
Defined.

Lemma redelivery_adds_second_order_witness :
  let w := Scenario.world [Scenario.subscription_of PENDING] in
  let w1 :=
    snd (Subscriptions.redeemSubscriptionPayment Scenario.engine "AG1" "TX1" w) in
  let w2 :=
    snd (Subscriptions.redeemSubscriptionPayment Scenario.engine "AG1" "TX1" w1) in
  map Order.id (orders w2) = ["uuid-1"; "uuid-3"]
  /\ map Order.payment (orders w2)
     = [Some {| OrderPayment.id := Some "AG1";
                OrderPayment.transactionId := Some "TX1";
                OrderPayment.provider := None |};
        Some {| OrderPayment.id := Some "AG1";
                OrderPayment.transactionId := Some "TX1";
                OrderPayment.provider := None |}]
  /\ List.length (redeem_calls (trace w2)) = 2.
Proof.
  intros w w1 w2.
  assert (Hdiff : "uuid-1" <> "uuid-3") by discriminate.
  destruct (@redelivery_adds_second_order Scenario.engine w "AG1" "TX1"
              (Scenario.subscription_of PENDING) Scenario.vip_plan
              eq_refl eq_refl eq_refl eq_refl Hdiff)
    as ((d1 & d2 & Horders) & _ & _ & _ & _ & Hcalls).
  fold w1 in Horders, Hcalls. fold w2 in Horders, Hcalls.
  rewrite Horders, Hcalls. destruct d1, d2; repeat split.
Defined.

Lemma billed_order_in_history_witness :
  let w := Scenario.world [Scenario.subscription_of PENDING] in
  let w1 :=
    snd (Subscriptions.redeemSubscriptionPayment Scenario.engine "AG1" "TX1" w) in
  user_discordId (Subscription.user (Scenario.subscription_of PENDING))
    = discord_id Scenario.alice
  /\ exists view d,
       Subscriptions.viewSubscription "sub-1" Scenario.alice w1 = (Ok view, w1)
       /\ view_subscription view = Scenario.subscription_of ACTIVE
       /\ view_plan view = Scenario.vip_plan
       /\ In (redeemed d
                (billed_order w "AG1" "TX1" (Scenario.subscription_of PENDING)
                   Scenario.vip_plan)) (history view).
Proof.
  intros w w1. split; [reflexivity|].
  destruct (@billed_order_in_history Scenario.engine w "AG1" "TX1"
              (Scenario.subscription_of PENDING) Scenario.vip_plan
              Scenario.alice eq_refl eq_refl eq_refl)
    as (view & d & Hview & Hsub & Hplan & Hin & _).
  exists view, d. split; [exact Hview|]. split; [exact Hsub|].
  split; [exact Hplan | exact Hin].
Defined.

Lemma service_bills_like_entity_witness :
  let w := Scenario.world [Scenario.subscription_of PENDING] in
  let w1 :=
    snd (Subscriptions.redeemSubscriptionPayment Scenario.engine "AG1" "TX1" w) in
  let paid :=
    Subscription.pay 1600000000000%Z "uuid-1" "TX1" "paypal" Scenario.vip
      (Scenario.subscription_of PENDING) in
  SubscriptionsRepository.by_payment "AG1" (subscriptions w)
    = Some (Scenario.subscription_of PENDING)
  /\ lookup Subscription.id "sub-1" (subscriptions w1) = Some (snd paid)
  /\ exists o stored,
       fst paid = Ok o
       /\ lookup Order.id "uuid-1" (orders w1) = Some stored
       /\ Order.status stored = Order.status o
       /\ Order.reference stored = Order.reference o.
Proof.
  intros w w1 paid. split; [reflexivity|].
  destruct (@service_bills_like_entity Scenario.engine w "AG1" "TX1" "paypal"
              (Scenario.subscription_of PENDING) Scenario.vip_plan
              eq_refl eq_refl)
    as (o & y & stored & Hpaid & _ & Hsub & Hstored & _ & _ & Href & _ & Hst & _).
  split; [exact Hsub|].
  exists o, stored. split; [exact Hpaid|].
  split; [|split; [exact Hst | exact Href]].
  cbn in Hpaid. injection Hpaid as <-. exact Hstored.
Defined.

(** ** The start controller: choosing a package and a price *)

Section StartControllerFacts.

Import StartController.

Variable sign_is_one : string -> bool.

(** A price that [price] returns has the type and currency of the
    package's price and is the price of the package afterwards.  Its amount
    differs from the configured one only when a text was submitted for a
    package that is not of fixed price, and then it is that text with its
    first comma as a point, which passed the sign test.  When [price]
    throws, the package is as it was. *)
Theorem price_changes_amount_only (submitted : option string) (pack : Package) :
  let out := price sign_is_one submitted pack in
  match fst out with
  | inr pr =>
      price_type pr = price_type (price_of pack)
      /\ currency pr = currency (price_of pack)
      /\ price_of (snd out) = pr
      /\ package_id (snd out) = package_id pack
      /\ (amount pr = amount (price_of pack)
          \/ exists text,
               submitted = Some text
               /\ price_type (price_of pack) = VARIABLE
               /\ amount pr = replace_comma text
               /\ sign_is_one (replace_comma text) = true)
  | inl e =>
      snd out = pack
      /\ exists text, submitted = Some text /\ truthy text = true
  end.
Proof.
  cbn zeta. unfold price.
  destruct submitted as [text|]; [|cbn; repeat split; auto].
  destruct (truthy text) eqn:Htext; [|cbn; repeat split; auto].
  destruct (price_type (price_of pack)) eqn:Htype; cbn.
  - split; [reflexivity|]. eauto.
  - destruct (sign_is_one (replace_comma text)) eqn:Hsign; cbn.
    + repeat split; auto. right. exists text. auto.
    + split; [reflexivity|]. eauto.
Qed.

(** For a package of fixed price, [price] never changes the package: every
    submitted text that is not empty, whatever it is, is refused with
    VariablePriceForFixedPackage, and with nothing or the empty text
    submitted the configured price is returned. *)
Theorem fixed_price_is_never_changed (submitted : option string) (pack : Package) :
  price_type (price_of pack) = FIXED ->
  let out := price sign_is_one submitted pack in
  snd out = pack
  /\ (forall text, submitted = Some text -> text <> "" ->
        fst out = Err (PlainError variable_price_for_fixed))
  /\ (submitted = None \/ submitted = Some "" ->
      fst out = Ok (price_of pack)).
Proof.
  intros Hfixed. cbn zeta. unfold price. rewrite Hfixed.
  destruct submitted as [[|c rest]|]; cbn; repeat split; try reflexivity.
  - intros text H Hne. injection H as <-. congruence.
  - intros [H|H]; discriminate H.
  - intros text H. discriminate H.
Qed.

Lemma find_write_package (pack pack' : Package) (packs : list Package) :
  find (fun q => Z.eqb (package_id q) (package_id pack)) packs = Some pack ->
  package_id pack' = package_id pack ->
  find (fun q => Z.eqb (package_id q) (package_id pack))
    (write_package pack' packs) = Some pack'.
Proof.
  intros Hfind Hid.
  induction packs as [|q rest IH]; cbn in *; [discriminate|].
  rewrite Hid.
  destruct (Z.eqb (package_id q) (package_id pack)) eqn:E; cbn.
  - now rewrite Hid, Z.eqb_refl.
  - rewrite E. now apply IH.
Qed.

Lemma with_price_same (pack : Package) : with_price (price_of pack) pack = pack.
Proof. now destruct pack. Qed.

Lemma write_package_same (pack : Package) (packs : list Package) :
  find (fun q => Z.eqb (package_id q) (package_id pack)) packs = Some pack ->
  write_package pack packs = packs.
Proof.
  induction packs as [|q rest IH]; cbn; [reflexivity|].
  destruct (Z.eqb (package_id q) (package_id pack)) eqn:E.
  - intros H. now injection H as ->.
  - intros H. now rewrite IH.
Qed.

(** What [selectPackage] does is decided by the package asked for and the
    price field of the form.  An unknown package is answered with a
    redirect to [/] and then a thrown TypeError.  For a known package:
    with no price, or an empty one, it is selected at its configured price
    with a redirect to [/donate]; a price for a package of fixed price is
    answered with a warning and a redirect to [/], nothing selected; a
    price that passes the sign test is written to the package, which is
    selected at that price with a redirect to [/donate]; a price that fails
    the sign test is thrown, with nothing sent or written. *)
Theorem selectPackage_outcomes (parsed : option Z) (body : string -> option string)
    (discordId : string) (h : Handled) :
  let out := selectPackage sign_is_one parsed body discordId h in
  let h' := snd out in
  ((forall pack, In pack (packages h) -> parsed <> Some (package_id pack)) ->
   fst out = Err (PlainError id_of_undefined)
   /\ h' = {| packages := packages h; selected := selected h;
              redirects := (redirects h ++ ["/"])%list;
              warnings := warnings h |})
  /\ (forall pack,
        parsed = Some (package_id pack) ->
        find (fun q => Z.eqb (package_id q) (package_id pack)) (packages h)
          = Some pack ->
        let field := body ("price-" ++ Number_toString (package_id pack)) in
        (field = None \/ field = Some "" ->
         fst out = Ok tt
         /\ h' = {| packages := packages h;
                    selected := Some (package_id pack, price_of pack);
                    redirects := (redirects h ++ ["/donate"])%list;
                    warnings := warnings h |})
        /\ (forall text, field = Some text -> text <> "" ->
              (price_type (price_of pack) = FIXED ->
               fst out = Ok tt
               /\ h' = {| packages := packages h; selected := selected h;
                          redirects := (redirects h ++ ["/"])%list;
                          warnings :=
                            (warnings h
                             ++ [("Discord user " ++ discordId
                                  ++ " requested variable price for fixed package.")%string])%list |})
              /\ (price_type (price_of pack) = VARIABLE ->
                  sign_is_one (replace_comma text) = true ->
                  let chosen := with_amount (replace_comma text) (price_of pack) in
                  fst out = Ok tt
                  /\ h' = {| packages :=
                               write_package (with_price chosen pack) (packages h);
                             selected := Some (package_id pack, chosen);
                             redirects := (redirects h ++ ["/donate"])%list;
                             warnings := warnings h |}
                  /\ find (fun q => Z.eqb (package_id q) (package_id pack))
                        (packages h') = Some (with_price chosen pack))
              /\ (price_type (price_of pack) = VARIABLE ->
                  sign_is_one (replace_comma text) = false ->
                  fst out
                  = Err (PlainError
                           ("Invalid variable price detected: "
                            ++ replace_comma text))
                  /\ h' = h))).
Proof.
  cbn zeta. split.
  - intros Hnone. unfold selectPackage.
    assert (Hfind : match parsed with
                    | Some n => find (fun q => Z.eqb (package_id q) n) (packages h)
                    | None => None
                    end = None).
    { destruct parsed as [n|]; [|reflexivity].
      destruct (find (fun q => Z.eqb (package_id q) n) (packages h))
        as [pack|] eqn:Hf; [|reflexivity].
      apply find_some in Hf. destruct Hf as (Hin & Hn).
      apply Z.eqb_eq in Hn. subst n. now destruct (Hnone pack Hin). }
    rewrite Hfind. split; reflexivity.
  - intros pack -> Hfind. unfold selectPackage. rewrite Hfind.
    unfold price. split.
    + intros [->| ->]; cbn; rewrite (@write_package_same pack (packages h) Hfind);
        split; reflexivity.
    + intros text -> Hne.
      assert (Htext : truthy text = true) by (destruct text; [congruence|reflexivity]).
      rewrite Htext. split; [|split].
      * intros ->. cbn. split; reflexivity.
      * intros -> ->. cbn. split; [reflexivity|]. split; [reflexivity|].
        now apply find_write_package.
      * intros -> ->. cbn. split; reflexivity.
Qed.

(** An accepted price stays in the configuration: after a request that
    selects a package of variable price with an accepted amount, a later
    request for that package without a price selects it at that amount. *)
Theorem accepted_price_is_kept (body later : string -> option string)
    (d1 d2 text : string) (pack : Package) (h : Handled) :
  find (fun q => Z.eqb (package_id q) (package_id pack)) (packages h)
    = Some pack ->
  price_type (price_of pack) = VARIABLE ->
  body ("price-" ++ Number_toString (package_id pack)) = Some text ->
  truthy text = true ->
  sign_is_one (replace_comma text) = true ->
  later ("price-" ++ Number_toString (package_id pack)) = None ->
  let chosen := with_amount (replace_comma text) (price_of pack) in
  let h1 :=
    snd (selectPackage sign_is_one (Some (package_id pack)) body d1 h) in
  let h2 :=
    snd (selectPackage sign_is_one (Some (package_id pack)) later d2 h1) in
  selected h1 = Some (package_id pack, chosen)
  /\ selected h2 = Some (package_id pack, chosen)
  /\ redirects h2 = (redirects h ++ ["/donate"; "/donate"])%list.
Proof.
  intros Hfind Htype Hbody Htext Hsign Hlater chosen h1 h2.
  assert (H1 : selectPackage sign_is_one (Some (package_id pack)) body d1 h
               = (Ok tt,
                  {| packages := write_package (with_price chosen pack) (packages h);
                     selected := Some (package_id pack, chosen);
                     redirects := (redirects h ++ ["/donate"])%list;
                     warnings := warnings h |})).
  { unfold selectPackage, price. rewrite Hfind, Hbody, Htext, Htype, Hsign.
    reflexivity. }
  subst h2 h1. rewrite H1. cbn [snd selected].
  split; [reflexivity|].
  assert (H2 : exists packs,
             selectPackage sign_is_one (Some (package_id pack)) later d2
               {| packages := write_package (with_price chosen pack) (packages h);
                  selected := Some (package_id pack, chosen);
                  redirects := (redirects h ++ ["/donate"])%list;
                  warnings := warnings h |}
             = (Ok tt,
                {| packages := packs;
                   selected := Some (package_id pack, chosen);
                   redirects := ((redirects h ++ ["/donate"]) ++ ["/donate"])%list;
                   warnings := warnings h |})).
  { unfold selectPackage. cbn [packages].
    rewrite (@find_write_package pack (with_price chosen pack) _ Hfind eq_refl).
    unfold price. cbn [package_id with_price]. rewrite Hlater.
    eexists. reflexivity. }
  destruct H2 as (packs & ->). cbn [snd selected redirects].
  split; [reflexivity|]. now rewrite <- app_assoc.
Qed.

End StartControllerFacts.

Lemma fixed_price_is_never_changed_witness :
  price_type (StartController.price_of Scenario.vip) = FIXED
  /\ StartController.price ScenarioStart.sign_is_one (Some "7,50") Scenario.vip
     = (Err (PlainError StartController.variable_price_for_fixed), Scenario.vip)
  /\ fst (StartController.price ScenarioStart.sign_is_one (Some "1") Scenario.vip)
     = Err (PlainError StartController.variable_price_for_fixed).
Proof.
  split; [reflexivity|].
  assert (H1 : "7,50" <> "") by discriminate.
  assert (H2 : "1" <> "") by discriminate.
  destruct (@fixed_price_is_never_changed ScenarioStart.sign_is_one
              (Some "7,50") Scenario.vip eq_refl) as (Hsame & Hrefused & _).
  destruct (@fixed_price_is_never_changed ScenarioStart.sign_is_one
              (Some "1") Scenario.vip eq_refl) as (_ & Hrefused' & _).
  split.
  - apply injective_projections; [exact (Hrefused "7,50" eq_refl H1) | exact Hsame].
  - exact (Hrefused' "1" eq_refl H2).
Defined.

Lemma accepted_price_is_kept_witness :
  let h1 :=
    snd (StartController.selectPackage ScenarioStart.sign_is_one (Some 2%Z)
           ScenarioStart.form "1001" ScenarioStart.start) in
  let h2 :=
    snd (StartController.selectPackage ScenarioStart.sign_is_one (Some 2%Z)
           ScenarioStart.empty_form "6666" h1) in
  ScenarioStart.sign_is_one (StartController.replace_comma "7,50") = true
  /\ StartController.selected h2
     = Some (2%Z, {| price_type := VARIABLE; currency := "USD"; amount := "7.50" |})
  /\ StartController.redirects h2 = ["/donate"; "/donate"].
Proof.
  intros h1 h2. split; [reflexivity|].
  destruct (@accepted_price_is_kept ScenarioStart.sign_is_one
              ScenarioStart.form ScenarioStart.empty_form "1001" "6666" "7,50"
              Scenario.other_package ScenarioStart.start
              eq_refl eq_refl eq_refl eq_refl eq_refl eq_refl)
    as (_ & Hsel & Hred).
  split; [exact Hsel | exact Hred].
Defined.
